(** * Engine Health Monitoring core: data acquisition and alert manager

    Shallow embedding of [src/ehms_types.h], [src/alert_manager.c] and
    [src/data_acquisition.c].

    Modelling conventions:
    - unsigned C integers ([uint8_t] ... [uint32_t]) are [N], with the
      wrap-around of [++] written out by [u32_inc]; [int32_t] is [Z];
    - a C [float] is kept as its IEEE-754 single-precision bit pattern
      (an [N] below 2^32).  Comparisons of floats are computed exactly from
      the bit patterns ([f32_lt], [f32_le], ...); float arithmetic
      (integer-to-float conversion, [*], [+]) is computed with
      round-to-nearest-even, each operation rounded separately;
    - padding bytes of structures are zero, as left by [memset];
    - fixed-size arrays are lists of the array's length, read with [nth]
      (or stdpp's [!!]) and written with stdpp's [<[i:=x]>];
    - functions of other modules the code calls (bus drivers, clock,
      parameter database, configuration) are fields of an environment
      record, one per acquisition cycle;
    - a [NULL] pointer argument is [None]. *)

From Stdlib Require Import ZArith NArith Lia String Ascii.
From stdpp Require Import base list.

Local Open Scope N_scope.

(* ------------------------------------------------------------------------- *)
(** ** ehms_types.h *)

Definition EHMS_MAX_ENGINES : N := 4.
Definition EHMS_MAX_ACTIVE_ALERTS : N := 32.
Definition EHMS_ARINC429_BUS_COUNT : N := 4.
Definition EHMS_PARAM_COUNT : N := 48.

Definition u32_mod : N := 4294967296.
(** [x++] on a [uint32_t]. *)
Definition u32_inc (x : N) : N := (x + 1) mod u32_mod.

(** [ehms_alert_level_t] *)
Inductive ehms_alert_level_t :=
| EHMS_ALERT_NONE | EHMS_ALERT_STATUS | EHMS_ALERT_ADVISORY
| EHMS_ALERT_CAUTION | EHMS_ALERT_WARNING.

Definition level_val (l : ehms_alert_level_t) : N :=
  match l with
  | EHMS_ALERT_NONE => 0 | EHMS_ALERT_STATUS => 1 | EHMS_ALERT_ADVISORY => 2
  | EHMS_ALERT_CAUTION => 3 | EHMS_ALERT_WARNING => 4
  end.

Global Instance ehms_alert_level_eq_dec : EqDecision ehms_alert_level_t.
Proof. solve_decision. Defined.

(** [ehms_param_status_t] *)
Inductive ehms_param_status_t :=
| EHMS_PARAM_VALID | EHMS_PARAM_STALE | EHMS_PARAM_FAILED
| EHMS_PARAM_NCD | EHMS_PARAM_TEST.

Definition status_val (s : ehms_param_status_t) : N :=
  match s with
  | EHMS_PARAM_VALID => 0 | EHMS_PARAM_STALE => 1 | EHMS_PARAM_FAILED => 2
  | EHMS_PARAM_NCD => 3 | EHMS_PARAM_TEST => 4
  end.

Definition is_valid (s : ehms_param_status_t) : bool :=
  match s with EHMS_PARAM_VALID => true | _ => false end.

(** [ehms_param_id_t] values used by the tables. *)
Definition EHMS_PARAM_N1 : N := 0.
Definition EHMS_PARAM_N2 : N := 1.
Definition EHMS_PARAM_EGT : N := 2.
Definition EHMS_PARAM_FF : N := 3.
Definition EHMS_PARAM_OIL_TEMP : N := 4.
Definition EHMS_PARAM_OIL_PRESS : N := 5.
Definition EHMS_PARAM_OIL_QTY : N := 6.
Definition EHMS_PARAM_VIB_FAN : N := 7.
Definition EHMS_PARAM_VIB_CORE : N := 8.
Definition EHMS_PARAM_EPR : N := 9.

(** [ehms_result_t] *)
Inductive ehms_result_t :=
| EHMS_OK | EHMS_ERROR | EHMS_ERROR_PARAM | EHMS_ERROR_RANGE
| EHMS_ERROR_TIMEOUT | EHMS_ERROR_BUSY | EHMS_ERROR_MEMORY
| EHMS_ERROR_HARDWARE | EHMS_ERROR_CONFIG | EHMS_ERROR_NOT_INIT
| EHMS_ERROR_CRC.

Global Instance ehms_result_eq_dec : EqDecision ehms_result_t.
Proof. solve_decision. Defined.

(** [ehms_timestamp_t] *)
Record ehms_timestamp_t := mk_timestamp {
  ts_year : N; ts_month : N; ts_day : N; ts_hour : N;
  ts_minute : N; ts_second : N; ts_millisecond : N }.

Definition zero_timestamp : ehms_timestamp_t := mk_timestamp 0 0 0 0 0 0 0.

(** [ehms_parameter_t]; [eng_value] is the bit pattern of a [float]. *)
Record ehms_parameter_t := mk_parameter {
  param_id : N;
  status : ehms_param_status_t;
  raw_value : Z;
  eng_value : N;
  timestamp : ehms_timestamp_t;
  source_bus : N }.

(** All-zero bytes ([memset]): status 0 is [EHMS_PARAM_VALID]. *)
Definition zero_parameter : ehms_parameter_t :=
  mk_parameter 0 EHMS_PARAM_VALID 0 0 zero_timestamp 0.

(** [ehms_engine_snapshot_t]; [parameters] has [EHMS_PARAM_COUNT] entries. *)
Record ehms_engine_snapshot_t := mk_snapshot {
  engine_id : N;
  sample_time : ehms_timestamp_t;
  flight_phase : N;
  parameters : list ehms_parameter_t;
  health_status : N;
  crc32 : N }.

Definition zero_snapshot : ehms_engine_snapshot_t :=
  mk_snapshot 0 zero_timestamp 0
    (repeat zero_parameter (N.to_nat EHMS_PARAM_COUNT)) 0 0.

(** [snapshot->parameters[i]] *)
Definition snap_param (s : ehms_engine_snapshot_t) (i : N) : ehms_parameter_t :=
  nth (N.to_nat i) (parameters s) zero_parameter.

(** [ehms_alert_t]; [message] is the text before the terminating NUL. *)
Record ehms_alert_t := mk_alert {
  alert_id : N;
  level : ehms_alert_level_t;
  a_engine_id : N;
  a_param_id : N;
  onset_time : ehms_timestamp_t;
  clear_time : ehms_timestamp_t;
  is_active : bool;
  is_latched : bool;
  is_inhibited : bool;
  message : string;
  ecam_code : N }.

Definition zero_alert : ehms_alert_t :=
  mk_alert 0 EHMS_ALERT_NONE 0 0 zero_timestamp zero_timestamp
    false false false EmptyString 0.

(* ------------------------------------------------------------------------- *)
(** ** IEEE-754 single precision, on bit patterns *)

Definition f32_is_nan (b : N) : bool :=
  (N.land (N.shiftr b 23) 255 =? 255) && negb (N.land b 8388607 =? 0).

(** Position of a non-NaN float on the real line, as an integer that is
    monotone in the value: positive floats are ordered by their bit
    patterns, negative ones in reverse, and [+0.0] and [-0.0] coincide. *)
Definition f32_key (b : N) : option Z :=
  if f32_is_nan b then None
  else if N.testbit b 31 then Some (- Z.of_N (N.land b 2147483647))%Z
  else Some (Z.of_N (N.land b 2147483647)).

(** The C comparisons [a < b], [a <= b], [a >= b], [a > b]: false when
    either operand is NaN. *)
Definition f32_cmp (op : Z -> Z -> bool) (a b : N) : bool :=
  match f32_key a, f32_key b with
  | Some x, Some y => op x y
  | _, _ => false
  end.
Definition f32_lt := f32_cmp Z.ltb.
Definition f32_le := f32_cmp Z.leb.
Definition f32_ge := f32_cmp (fun x y => Z.leb y x).
Definition f32_gt := f32_cmp (fun x y => Z.ltb y x).

(** Bit pattern of the float literal [n.0f] for a positive integer
    [n < 2^24] (exactly representable). *)
Definition f32_of_pos_int (n : N) : N :=
  let e := N.log2 n in
  N.lor (N.shiftl (e + 127) 23) (N.land (N.shiftl n (23 - e)) 8388607).

(** IEEE-754 single-precision arithmetic with round-to-nearest-even, as a C
    compiler evaluates [float] expressions (FLT_EVAL_METHOD 0, no fused
    multiply-add contraction). *)
Inductive f32_class :=
| F32NaN
| F32Inf (neg : bool)
| F32Fin (neg : bool) (m : Z) (e : Z).   (* (-1)^neg * m * 2^e, m >= 0 *)

Definition f32_decode (b : N) : f32_class :=
  let ex := N.land (N.shiftr b 23) 255 in
  let fr := N.land b 8388607 in
  let neg := N.testbit b 31 in
  if ex =? 255 then (if fr =? 0 then F32Inf neg else F32NaN)
  else if ex =? 0 then F32Fin neg (Z.of_N fr) (-149)
  else F32Fin neg (Z.of_N fr + 8388608) (Z.of_N ex - 150).

Definition f32_sign_bit (neg : bool) : N := if neg then 2147483648 else 0.
Definition f32_qnan : N := 2143289344.
Definition f32_inf (neg : bool) : N := N.lor (f32_sign_bit neg) 2139095040.

(** Round [(-1)^neg * m * 2^e] ([m >= 0]) to the nearest float, ties to
    even, and encode it. *)
Definition f32_round_pack (neg : bool) (m e : Z) : N :=
  if (m =? 0)%Z then f32_sign_bit neg
  else
    let q0 := Z.max (Z.log2 m + e - 23) (-149) in
    let '(mant, q) :=
      if (q0 <=? e)%Z then (Z.shiftl m (e - q0), q0)
      else
        let sh := (q0 - e)%Z in
        let qt := Z.shiftr m sh in
        let r := (m - Z.shiftl qt sh)%Z in
        let half := Z.shiftl 1 (sh - 1) in
        ((if (half <? r)%Z || ((r =? half)%Z && Z.odd qt) then qt + 1 else qt)%Z, q0) in
    let '(mant, q) := if (mant =? 16777216)%Z then (8388608%Z, (q + 1)%Z) else (mant, q) in
    if (mant <? 8388608)%Z then N.lor (f32_sign_bit neg) (Z.to_N mant)
    else if (255 <=? q + 150)%Z then f32_inf neg
    else N.lor (f32_sign_bit neg)
           (N.lor (N.shiftl (Z.to_N (q + 150)) 23) (Z.to_N (mant - 8388608))).

(** [(float)n] for an unsigned integer [n]. *)
Definition f32_of_unsigned (n : N) : N := f32_round_pack false (Z.of_N n) 0.

(** [a * b] *)
Definition f32_mul (a b : N) : N :=
  match f32_decode a, f32_decode b with
  | F32NaN, _ | _, F32NaN => f32_qnan
  | F32Inf s1, F32Inf s2 => f32_inf (xorb s1 s2)
  | F32Inf s1, F32Fin s2 m _ | F32Fin s2 m _, F32Inf s1 =>
      if (m =? 0)%Z then f32_qnan else f32_inf (xorb s1 s2)
  | F32Fin s1 m1 e1, F32Fin s2 m2 e2 => f32_round_pack (xorb s1 s2) (m1 * m2) (e1 + e2)
  end.

(** [a + b] *)
Definition f32_add (a b : N) : N :=
  match f32_decode a, f32_decode b with
  | F32NaN, _ | _, F32NaN => f32_qnan
  | F32Inf s1, F32Inf s2 => if Bool.eqb s1 s2 then f32_inf s1 else f32_qnan
  | F32Inf s, F32Fin _ _ _ | F32Fin _ _ _, F32Inf s => f32_inf s
  | F32Fin s1 m1 e1, F32Fin s2 m2 e2 =>
      let e := Z.min e1 e2 in
      let v1 := Z.shiftl m1 (e1 - e) in
      let v2 := Z.shiftl m2 (e2 - e) in
      let v := ((if s1 then - v1 else v1) + (if s2 then - v2 else v2))%Z in
      if (v =? 0)%Z then f32_sign_bit (s1 && s2)
      else f32_round_pack (v <? 0)%Z (Z.abs v) e
  end.

(* ------------------------------------------------------------------------- *)
(** ** [snprintf(buf, 64, fmt, (int)engine_id + 1)] *)

Fixpoint decimal_digits (fuel : nat) (n : N) (acc : string) : string :=
  match fuel with
  | O => acc
  | S f =>
      let acc' := String (ascii_of_N (48 + n mod 10)) acc in
      if n <? 10 then acc' else decimal_digits f (n / 10) acc'
  end.

(** [%d] of an [int]. *)
Definition decimal_of_Z (z : Z) : string :=
  if (z <? 0)%Z then String "-" (decimal_digits 20 (Z.to_N (- z)) EmptyString)
  else decimal_digits 20 (Z.to_N z) EmptyString.

(** The templates of [s_thresholds] hold a single [%d] directive. *)
Fixpoint format_d (fmt : string) (arg : string) : string :=
  match fmt with
  | EmptyString => EmptyString
  | String "%" (String "d" rest) => String.append arg rest
  | String c rest => String c (format_d rest arg)
  end.

(** [snprintf] into [char message[64]] keeps at most 63 characters. *)
Definition snprintf_d (size : nat) (fmt : string) (arg : Z) : string :=
  substring 0 (size - 1) (format_d fmt (decimal_of_Z arg)).

(* ------------------------------------------------------------------------- *)
(** ** alert_manager.c *)

Module Alert.

(** [alert_threshold_t] *)
Record alert_threshold_t := mk_threshold {
  thr_param_id : N;
  thr_level : ehms_alert_level_t;
  threshold : N;          (* float bit pattern *)
  high_limit : bool;
  thr_ecam_code : N;
  thr_message : string }.

(** [s_thresholds] *)
Definition s_thresholds : list alert_threshold_t := [
  mk_threshold EHMS_PARAM_EGT EHMS_ALERT_CAUTION (f32_of_pos_int 950) true 4097 "ENG %d EGT HIGH";
  mk_threshold EHMS_PARAM_EGT EHMS_ALERT_WARNING (f32_of_pos_int 1000) true 4098 "ENG %d EGT OVERLIMIT";
  mk_threshold EHMS_PARAM_OIL_PRESS EHMS_ALERT_CAUTION (f32_of_pos_int 25) false 8193 "ENG %d OIL PRESS LO";
  mk_threshold EHMS_PARAM_OIL_PRESS EHMS_ALERT_WARNING (f32_of_pos_int 15) false 8194 "ENG %d OIL PRESS CRIT";
  mk_threshold EHMS_PARAM_OIL_TEMP EHMS_ALERT_CAUTION (f32_of_pos_int 140) true 8195 "ENG %d OIL TEMP HI";
  mk_threshold EHMS_PARAM_OIL_TEMP EHMS_ALERT_WARNING (f32_of_pos_int 155) true 8196 "ENG %d OIL TEMP CRIT";
  mk_threshold EHMS_PARAM_VIB_FAN EHMS_ALERT_CAUTION (f32_of_pos_int 3) true 12289 "ENG %d FAN VIB HI";
  mk_threshold EHMS_PARAM_VIB_FAN EHMS_ALERT_WARNING (f32_of_pos_int 5) true 12290 "ENG %d FAN VIB CRIT";
  mk_threshold EHMS_PARAM_VIB_CORE EHMS_ALERT_CAUTION (f32_of_pos_int 4) true 12291 "ENG %d CORE VIB HI";
  mk_threshold EHMS_PARAM_VIB_CORE EHMS_ALERT_WARNING (f32_of_pos_int 6) true 12292 "ENG %d CORE VIB CRIT";
  mk_threshold EHMS_PARAM_N1 EHMS_ALERT_WARNING (f32_of_pos_int 104) true 16385 "ENG %d N1 OVERLIMIT";
  mk_threshold EHMS_PARAM_N2 EHMS_ALERT_WARNING (f32_of_pos_int 105) true 16386 "ENG %d N2 OVERLIMIT"
]%string.

(** [alert_state_t]; [alerts] has [EHMS_MAX_ACTIVE_ALERTS] slots, the
    first [active_count] of which form the active set. *)
Record alert_state_t := mk_alert_state {
  alerts : list ehms_alert_t;
  active_count : N;
  next_alert_id : N;
  master_caution : bool;
  master_warning : bool;
  highest_level : ehms_alert_level_t }.

(** [alerts[0 .. active_count)] *)
Definition active_alerts (st : alert_state_t) : list ehms_alert_t :=
  take (N.to_nat (active_count st)) (alerts st).

(** [alert_init] *)
Definition alert_init : ehms_result_t * alert_state_t :=
  (EHMS_OK,
   mk_alert_state (repeat zero_alert (N.to_nat EHMS_MAX_ACTIVE_ALERTS))
     0 1 false false EHMS_ALERT_NONE).

Definition alert_initial_state : alert_state_t := snd alert_init.

(** The [already_active] test of the inner loop. *)
Definition same_tuple (thresh : alert_threshold_t) (snapshot : ehms_engine_snapshot_t)
    (a : ehms_alert_t) : bool :=
  (a_param_id a =? thr_param_id thresh) && (a_engine_id a =? engine_id snapshot)
  && bool_decide (level a = thr_level thresh).

(** [exceeded] *)
Definition exceeded (thresh : alert_threshold_t) (param : ehms_parameter_t) : bool :=
  if high_limit thresh then f32_ge (eng_value param) (threshold thresh)
  else f32_le (eng_value param) (threshold thresh).

(** The "Create new alert" block, writing slot [active_count]. *)
Definition create_alert (thresh : alert_threshold_t) (snapshot : ehms_engine_snapshot_t)
    (st : alert_state_t) : alert_state_t :=
  let slot := nth (N.to_nat (active_count st)) (alerts st) zero_alert in
  let new_alert :=
    mk_alert (next_alert_id st) (thr_level thresh) (engine_id snapshot)
      (thr_param_id thresh) (sample_time snapshot) (clear_time slot)
      true (level_val EHMS_ALERT_WARNING <=? level_val (thr_level thresh))
      (is_inhibited slot)
      (snprintf_d 64 (thr_message thresh) (Z.of_N (engine_id snapshot) + 1)%Z)
      (thr_ecam_code thresh) in
  let lv := level_val (thr_level thresh) in
  mk_alert_state
    (<[N.to_nat (active_count st) := new_alert]> (alerts st))
    (u32_inc (active_count st))
    (u32_inc (next_alert_id st))
    (if level_val EHMS_ALERT_WARNING <=? lv then master_caution st
     else if level_val EHMS_ALERT_CAUTION <=? lv then true else master_caution st)
    (if level_val EHMS_ALERT_WARNING <=? lv then true else master_warning st)
    (if level_val (highest_level st) <? lv then thr_level thresh else highest_level st).
    (* eicas_post_message and recorder_log_alert are output sinks whose
       results are discarded; they do not change this module's state. *)

(** One iteration of the threshold loop. *)
Definition process_threshold (snapshot : ehms_engine_snapshot_t)
    (st : alert_state_t) (thresh : alert_threshold_t) : alert_state_t :=
  let param := snap_param snapshot (thr_param_id thresh) in
  if negb (is_valid (status param)) then st
  else if exceeded thresh param then
    let already_active := existsb (same_tuple thresh snapshot) (active_alerts st) in
    if negb already_active && (active_count st <? EHMS_MAX_ACTIVE_ALERTS)
    then create_alert thresh snapshot st
    else st
  else st.

(** [alert_process_snapshot] *)
Definition alert_process_snapshot (snapshot : option ehms_engine_snapshot_t)
    (st : alert_state_t) : ehms_result_t * alert_state_t :=
  match snapshot with
  | None => (EHMS_ERROR_PARAM, st)
  | Some s => (EHMS_OK, fold_left (process_threshold s) s_thresholds st)
  end.

(** [alert_acknowledge] *)
Definition alert_acknowledge (lvl : ehms_alert_level_t) (st : alert_state_t)
    : ehms_result_t * alert_state_t :=
  (EHMS_OK,
   if level_val EHMS_ALERT_WARNING <=? level_val lvl then
     mk_alert_state (alerts st) (active_count st) (next_alert_id st)
       (master_caution st) false (highest_level st)
   else if level_val EHMS_ALERT_CAUTION <=? level_val lvl then
     mk_alert_state (alerts st) (active_count st) (next_alert_id st)
       false (master_warning st) (highest_level st)
   else st).

Definition alert_get_active_count (st : alert_state_t) : N := active_count st.
Definition alert_get_highest_level (st : alert_state_t) : ehms_alert_level_t :=
  highest_level st.
Definition alert_is_master_warning (st : alert_state_t) : bool := master_warning st.
Definition alert_is_master_caution (st : alert_state_t) : bool := master_caution st.

(** Calls into the module after [alert_init]. *)
Inductive alert_call :=
| CallProcess (s : option ehms_engine_snapshot_t)
| CallAcknowledge (l : ehms_alert_level_t).

Definition alert_step (c : alert_call) (st : alert_state_t) : alert_state_t :=
  match c with
  | CallProcess s => snd (alert_process_snapshot s st)
  | CallAcknowledge l => snd (alert_acknowledge l st)
  end.

Definition alert_run (cs : list alert_call) (st : alert_state_t) : alert_state_t :=
  fold_left (fun st c => alert_step c st) cs st.

(** States reachable from [alert_init]. *)
Inductive alert_reachable : alert_state_t -> Prop :=
| reach_init : alert_reachable alert_initial_state
| reach_process s st : alert_reachable st ->
    alert_reachable (snd (alert_process_snapshot s st))
| reach_ack l st : alert_reachable st ->
    alert_reachable (snd (alert_acknowledge l st)).

(** Identity of an alert: [(engine_id, param_id, level)]. *)
Definition alert_key (a : ehms_alert_t) : N * N * N :=
  (a_engine_id a, a_param_id a, level_val (level a)).

(** The tuple of threshold row [th] for the engine of snapshot [s]. *)
Definition row_key (s : ehms_engine_snapshot_t) (th : alert_threshold_t) : N * N * N :=
  (engine_id s, thr_param_id th, level_val (thr_level th)).

(** A new alert of a row: its tuple is the row's, and the row's parameter is
    [Valid] and exceeded in the snapshot. *)
Definition from_row (s : ehms_engine_snapshot_t) (th : alert_threshold_t)
    (a : ehms_alert_t) : Prop :=
  alert_key a = row_key s th /\
  is_valid (status (snap_param s (thr_param_id th))) = true /\
  exceeded th (snap_param s (thr_param_id th)) = true.

End Alert.

(* ------------------------------------------------------------------------- *)
(** ** Concrete inputs for the alert manager *)

Module AlertScenarios.
Import Alert.

Definition sample_ts : ehms_timestamp_t := mk_timestamp 2025 1 15 12 0 0 0.

(** A [Valid] parameter whose engineering value has bit pattern [v]. *)
Definition valid_param (i v : N) : ehms_parameter_t :=
  mk_parameter i EHMS_PARAM_VALID 0 v sample_ts 0.

(** A snapshot of engine [e] in which every parameter is [Valid]; the
    parameters listed in [vals] have the given values, the others read
    [0.0f]. *)
Definition snapshot_of (e : N) (vals : list (N * N)) : ehms_engine_snapshot_t :=
  mk_snapshot e sample_ts 0
    (fold_left (fun ps iv => <[N.to_nat iv.1 := valid_param iv.1 iv.2]> ps) vals
       (imap (fun i _ => valid_param (N.of_nat i) 0)
          (repeat tt (N.to_nat EHMS_PARAM_COUNT))))
    0 0.

(** Nominal readings: N1 85 %, N2 90 %, EGT 600 C, oil 90 C and 40 PSI,
    vibrations 1 IPS; no threshold is reached. *)
Definition nominal : list (N * N) :=
  [(EHMS_PARAM_N1, f32_of_pos_int 85); (EHMS_PARAM_N2, f32_of_pos_int 90);
   (EHMS_PARAM_EGT, f32_of_pos_int 600); (EHMS_PARAM_OIL_TEMP, f32_of_pos_int 90);
   (EHMS_PARAM_OIL_PRESS, f32_of_pos_int 40); (EHMS_PARAM_VIB_FAN, f32_of_pos_int 1);
   (EHMS_PARAM_VIB_CORE, f32_of_pos_int 1)].

(** Nominal engine [e] with the EGT reading [egt] (an integer in C). *)
Definition snap_egt (e egt : N) : ehms_engine_snapshot_t :=
  snapshot_of e (nominal ++ [(EHMS_PARAM_EGT, f32_of_pos_int egt)]).

(** Engine [e] with every row of [s_thresholds] exceeded. *)
Definition snap_all_exceeded (e : N) : ehms_engine_snapshot_t :=
  snapshot_of e
    [(EHMS_PARAM_N1, f32_of_pos_int 110); (EHMS_PARAM_N2, f32_of_pos_int 110);
     (EHMS_PARAM_EGT, f32_of_pos_int 1000); (EHMS_PARAM_OIL_TEMP, f32_of_pos_int 160);
     (EHMS_PARAM_OIL_PRESS, f32_of_pos_int 10); (EHMS_PARAM_VIB_FAN, f32_of_pos_int 6);
     (EHMS_PARAM_VIB_CORE, f32_of_pos_int 7)].

(** Replace the engineering value of parameter [p] of a snapshot. *)
Definition set_eng_value (s : ehms_engine_snapshot_t) (p v : N) : ehms_engine_snapshot_t :=
  let q := snap_param s p in
  mk_snapshot (engine_id s) (sample_time s) (flight_phase s)
    (<[N.to_nat p := mk_parameter (param_id q) (status q) (raw_value q) v
                       (timestamp q) (source_bus q)]> (parameters s))
    (health_status s) (crc32 s).

(** Replace the status of parameter [p] of a snapshot. *)
Definition set_status (s : ehms_engine_snapshot_t) (p : N) (st : ehms_param_status_t)
    : ehms_engine_snapshot_t :=
  let q := snap_param s p in
  mk_snapshot (engine_id s) (sample_time s) (flight_phase s)
    (<[N.to_nat p := mk_parameter (param_id q) st (raw_value q) (eng_value q)
                       (timestamp q) (source_bus q)]> (parameters s))
    (health_status s) (crc32 s).

Definition process_calls (ss : list ehms_engine_snapshot_t) : list alert_call :=
  map (fun s => CallProcess (Some s)) ss.

(** Engines 1, 2 and 3 with every threshold exceeded: 12 + 12 + 8 alerts. *)
Definition full_state : alert_state_t :=
  alert_run (process_calls [snap_all_exceeded 0; snap_all_exceeded 1; snap_all_exceeded 2])
    alert_initial_state.

(** Engine 2 at EGT 950 C: one Caution alert. *)
Definition egt_caution_state : alert_state_t :=
  alert_run (process_calls [snap_egt 1 950]) alert_initial_state.

End AlertScenarios.

(* ------------------------------------------------------------------------- *)
(** ** Alert-manager properties as the specification words them *)

Module AlertSpec.
Import Alert AlertScenarios.

(** A [Valid], non-exceeded reading clears an active non-latched alert of
    the same tuple: afterwards no alert of that tuple is in the active set. *)
Definition clears_on_recovery : Prop :=
  forall st s th i a,
    In th s_thresholds ->
    is_valid (status (snap_param s (thr_param_id th))) = true ->
    exceeded th (snap_param s (thr_param_id th)) = false ->
    active_alerts st !! i = Some a ->
    alert_key a = row_key s th ->
    is_latched a = false ->
    forall j a', active_alerts (snd (alert_process_snapshot (Some s) st)) !! j = Some a' ->
      alert_key a' <> row_key s th.

(** Debounce: fewer than 3 ticks after [alert_init] never allocate an alert
    (a tuple cannot have been exceeded on 3 consecutive ticks yet). *)
Definition debounced_allocation : Prop :=
  forall ss : list ehms_engine_snapshot_t,
    (length ss < 3)%nat ->
    active_count (alert_run (process_calls ss) alert_initial_state) = 0.

(** A new distinct exceedance on a full active set returns an error
    ([QueueFull]) and leaves the active set as it was. *)
Definition full_set_reports_error : Prop :=
  forall st s th,
    active_count st = EHMS_MAX_ACTIVE_ALERTS ->
    In th s_thresholds ->
    is_valid (status (snap_param s (thr_param_id th))) = true ->
    exceeded th (snap_param s (thr_param_id th)) = true ->
    existsb (same_tuple th s) (active_alerts st) = false ->
    fst (alert_process_snapshot (Some s) st) <> EHMS_OK /\
    active_count (snd (alert_process_snapshot (Some s) st)) = EHMS_MAX_ACTIVE_ALERTS /\
    active_alerts (snd (alert_process_snapshot (Some s) st)) = active_alerts st.

(** [acknowledge(level)] clears the master indicators at [level] and above
    and leaves the active set untouched. *)
Definition acknowledge_level_and_above : Prop :=
  forall l st,
    let st' := snd (alert_acknowledge l st) in
    (level_val l <= level_val EHMS_ALERT_CAUTION -> master_caution st' = false) /\
    (level_val l <= level_val EHMS_ALERT_WARNING -> master_warning st' = false) /\
    alerts st' = alerts st /\ active_count st' = active_count st.

End AlertSpec.

(* ------------------------------------------------------------------------- *)
(** ** data_acquisition.c *)

Module Daq.

Definition DAQ_STALE_TIMEOUT_MS : N := 100.
Definition DAQ_MAX_CONSECUTIVE_FAILURES : N := 5.
Definition DAQ_CRC32_POLYNOMIAL : N := 3988292384.   (* 0xEDB88320 *)

(** [a - b] on [uint32_t]. *)
Definition u32_sub (a b : N) : N := (a + u32_mod - b mod u32_mod) mod u32_mod.

(** [int32_t] value of a [uint32_t] (two's complement). *)
Definition i32_of_u32 (n : N) : Z :=
  if n <? 2147483648 then Z.of_N n else (Z.of_N n - 4294967296)%Z.

(** [daq_param_config_t]; [scale_factor] and [offset] are float bit patterns. *)
Record daq_param_config_t := mk_param_config {
  cfg_param_id : N;
  arinc_label : N;
  bus_primary : N;
  bus_backup : N;
  scale_factor : N;
  offset : N }.

Definition zero_param_config : daq_param_config_t := mk_param_config 0 0 0 0 0 0.

(** Float literals of the table: 0.1f, 1.0f, 0.5f, -40.0f, 0.001f. *)
Definition F_0_1 : N := 1036831949.     (* 0x3DCCCCCD *)
Definition F_1_0 : N := 1065353216.     (* 0x3F800000 *)
Definition F_0_5 : N := 1056964608.     (* 0x3F000000 *)
Definition F_M40_0 : N := 3256877056.   (* 0xC2200000 *)
Definition F_0_001 : N := 981668463.    (* 0x3A83126F *)

(** [s_param_config[EHMS_PARAM_COUNT]]: ten initialised rows; the remaining
    38 elements of the static array are zero-initialised. *)
Definition s_param_config : list daq_param_config_t :=
  [ mk_param_config EHMS_PARAM_N1       200 0 1 F_0_1   0;        (* 0o310 *)
    mk_param_config EHMS_PARAM_N2       201 0 1 F_0_1   0;        (* 0o311 *)
    mk_param_config EHMS_PARAM_EGT      202 0 1 F_1_0   0;        (* 0o312 *)
    mk_param_config EHMS_PARAM_FF       203 0 1 F_0_1   0;        (* 0o313 *)
    mk_param_config EHMS_PARAM_OIL_TEMP 204 0 1 F_0_5   F_M40_0;  (* 0o314 *)
    mk_param_config EHMS_PARAM_OIL_PRESS 205 0 1 F_0_1  0;        (* 0o315 *)
    mk_param_config EHMS_PARAM_OIL_QTY  206 0 1 F_0_5   0;        (* 0o316 *)
    mk_param_config EHMS_PARAM_VIB_FAN  207 2 3 F_0_001 0;        (* 0o317 *)
    mk_param_config EHMS_PARAM_VIB_CORE 208 2 3 F_0_001 0;        (* 0o320 *)
    mk_param_config EHMS_PARAM_EPR      209 0 1 F_0_001 0 ]       (* 0o321 *)
  ++ repeat zero_param_config 38.

Definition param_config (p : N) : daq_param_config_t :=
  nth (N.to_nat p) s_param_config zero_param_config.

(** [daq_source_info_t] *)
Record daq_source_info_t := mk_source {
  src_is_active : bool;
  src_is_primary : bool;
  src_bus_id : N;
  last_update_ms : N;
  failure_count : N;
  total_samples : N;
  error_samples : N }.

Definition zero_source : daq_source_info_t := mk_source false false 0 0 0 0 0.

(** [daq_module_state_t]; [sources] has [EHMS_ARINC429_BUS_COUNT] entries,
    [engine_data] has [EHMS_MAX_ENGINES]. *)
Record daq_module_state_t := mk_daq_state {
  is_initialized : bool;
  sys_state : N;                 (* ehms_system_state_t *)
  cycle_count : N;
  current_time_ms : N;
  sources : list daq_source_info_t;
  engine_data : list ehms_engine_snapshot_t;
  last_error : ehms_result_t }.

(** [memset(&s_daq_state, 0, sizeof(s_daq_state))] *)
Definition zero_daq_state : daq_module_state_t :=
  mk_daq_state false 0 0 0
    (repeat zero_source (N.to_nat EHMS_ARINC429_BUS_COUNT))
    (repeat zero_snapshot (N.to_nat EHMS_MAX_ENGINES)) EHMS_OK.

Definition EHMS_STATE_INIT : N := 1.

(** The functions of other modules called by this one, with the results
    they return during one call of the module. *)
Record daq_env := mk_daq_env {
  system_get_time_ms : N;
  system_get_timestamp : ehms_timestamp_t;
  config_get_engine_count : N;
  arinc429_read : N -> N -> ehms_result_t * N;          (* bus, label -> result, word.data *)
  milstd1553_read_subaddress : N -> ehms_result_t * list N;   (* msg.data *)
  param_db_get_limits : N -> ehms_result_t * (N * N);   (* min_value, max_value *)
  timestamp_to_ms : ehms_timestamp_t -> N }.

(** Field updates. *)
Definition set_sources (st : daq_module_state_t) (l : list daq_source_info_t) :=
  mk_daq_state (is_initialized st) (sys_state st) (cycle_count st) (current_time_ms st)
    l (engine_data st) (last_error st).
Definition set_engine_data (st : daq_module_state_t) (l : list ehms_engine_snapshot_t) :=
  mk_daq_state (is_initialized st) (sys_state st) (cycle_count st) (current_time_ms st)
    (sources st) l (last_error st).
Definition set_parameters (s : ehms_engine_snapshot_t) (ps : list ehms_parameter_t) :=
  mk_snapshot (engine_id s) (sample_time s) (flight_phase s) ps (health_status s) (crc32 s).
Definition set_status (q : ehms_parameter_t) (x : ehms_param_status_t) :=
  mk_parameter (param_id q) x (raw_value q) (eng_value q) (timestamp q) (source_bus q).

(** [s_daq_state.engine_data[eng]] *)
Definition engine_slot (st : daq_module_state_t) (eng : N) : ehms_engine_snapshot_t :=
  nth (N.to_nat eng) (engine_data st) zero_snapshot.

(** [s_daq_state.sources[bus]] *)
Definition source_slot (st : daq_module_state_t) (bus : N) : daq_source_info_t :=
  nth (N.to_nat bus) (sources st) zero_source.

(** Write [engine_data[eng].parameters[p] = q]. *)
Definition write_param (st : daq_module_state_t) (eng p : N) (q : ehms_parameter_t) :=
  let s := engine_slot st eng in
  set_engine_data st
    (<[N.to_nat eng := set_parameters s (<[N.to_nat p := q]> (parameters s))]>
       (engine_data st)).

(** [daq_update_statistics] *)
Definition daq_update_statistics (bus_id : N) (success : bool)
    (st : daq_module_state_t) : daq_module_state_t :=
  if bus_id <? EHMS_ARINC429_BUS_COUNT then
    let s := source_slot st bus_id in
    let total := u32_inc (total_samples s) in
    let s' :=
      if negb success then
        let fails := u32_inc (failure_count s) in
        mk_source
          (if DAQ_MAX_CONSECUTIVE_FAILURES <=? fails then false else src_is_active s)
          (src_is_primary s) (src_bus_id s) (current_time_ms st) fails total
          (u32_inc (error_samples s))
      else
        mk_source (src_is_active s) (src_is_primary s) (src_bus_id s)
          (current_time_ms st) 0 total (error_samples s) in
    set_sources st (<[N.to_nat bus_id := s']> (sources st))
  else st.

(** [daq_init_sources] *)
Definition daq_init_sources (st : daq_module_state_t) : ehms_result_t * daq_module_state_t :=
  (EHMS_OK,
   set_sources st
     (map (fun i => mk_source true (i <? 2) i 0 0 0 0)
        (map N.of_nat (seq 0 (N.to_nat EHMS_ARINC429_BUS_COUNT))))).

(** One iteration [p] of the loop of [daq_read_arinc429_data]. *)
Definition read_arinc_param (env : daq_env) (bus_id engine : N)
    (acc : ehms_result_t * daq_module_state_t) (p : N) : ehms_result_t * daq_module_state_t :=
  let '(result, st) := acc in
  let cfg := param_config p in
  if bus_primary cfg =? bus_id then
    let '(r, data) := arinc429_read env bus_id (arinc_label cfg) in
    if bool_decide (r = EHMS_OK) then
      let q := mk_parameter p EHMS_PARAM_VALID (i32_of_u32 data)
                 (f32_add (f32_mul (f32_of_unsigned data) (scale_factor cfg)) (offset cfg))
                 (system_get_timestamp env) bus_id in
      (r, daq_update_statistics bus_id true (write_param st engine p q))
    else (r, daq_update_statistics bus_id false st)
  else (result, st).

(** [daq_read_arinc429_data] *)
Definition daq_read_arinc429_data (env : daq_env) (bus_id engine : N)
    (st : daq_module_state_t) : ehms_result_t * daq_module_state_t :=
  fold_left (read_arinc_param env bus_id engine)
    (map N.of_nat (seq 0 (N.to_nat EHMS_PARAM_COUNT))) (EHMS_OK, st).

(** [daq_read_1553_data] *)
Definition daq_read_1553_data (env : daq_env) (engine : N) (st : daq_module_state_t)
    : ehms_result_t * daq_module_state_t :=
  let '(result, data) := milstd1553_read_subaddress env 5 in
  if bool_decide (result = EHMS_OK) then
    let d0 := nth 0 data 0 in
    let d1 := nth 1 data 0 in
    let fan := snap_param (engine_slot st engine) EHMS_PARAM_VIB_FAN in
    let st1 := write_param st engine EHMS_PARAM_VIB_FAN
                 (mk_parameter (param_id fan) EHMS_PARAM_VALID (Z.of_N d0)
                    (f32_mul (f32_of_unsigned d0) F_0_001) (timestamp fan) (source_bus fan)) in
    let core := snap_param (engine_slot st1 engine) EHMS_PARAM_VIB_CORE in
    let st2 := write_param st1 engine EHMS_PARAM_VIB_CORE
                 (mk_parameter (param_id core) EHMS_PARAM_VALID (Z.of_N d1)
                    (f32_mul (f32_of_unsigned d1) F_0_001) (timestamp core) (source_bus core)) in
    (result, st2)
  else (result, st).

(** [daq_validate_parameter] *)
Definition daq_validate_parameter (env : daq_env) (param : ehms_parameter_t) : ehms_parameter_t :=
  let '(r, (min_value, max_value)) := param_db_get_limits env (param_id param) in
  if bool_decide (r = EHMS_OK) then
    if f32_lt (eng_value param) min_value || f32_gt (eng_value param) max_value
    then set_status param EHMS_PARAM_FAILED else param
  else param.

(** [daq_check_staleness] *)
Definition daq_check_staleness (env : daq_env) (st : daq_module_state_t)
    (param : ehms_parameter_t) : ehms_parameter_t :=
  let param_age_ms := u32_sub (current_time_ms st) (timestamp_to_ms env (timestamp param)) in
  if DAQ_STALE_TIMEOUT_MS <? param_age_ms then
    if is_valid (status param) then set_status param EHMS_PARAM_STALE else param
  else param.

(** [daq_calculate_crc32] over a byte sequence. *)
Fixpoint crc32_shift (n : nat) (crc : N) : N :=
  match n with
  | O => crc
  | S n' => crc32_shift n'
              (if N.odd crc then N.lxor (N.shiftr crc 1) DAQ_CRC32_POLYNOMIAL
               else N.shiftr crc 1)
  end.

Definition daq_calculate_crc32 (bytes : list N) : N :=
  N.lxor (fold_left (fun crc b => crc32_shift 8 (N.lxor crc b)) bytes 4294967295)
         4294967295.

(** In-memory bytes of the structures (little-endian, 4-byte enums, padding
    bytes zero as left by [memset]). *)
Fixpoint le_bytes (k : nat) (n : N) : list N :=
  match k with O => [] | S k' => (n mod 256) :: le_bytes k' (n / 256) end.

Definition timestamp_bytes (t : ehms_timestamp_t) : list N :=
  le_bytes 2 (ts_year t) ++ [ts_month t; ts_day t; ts_hour t; ts_minute t; ts_second t; 0]
  ++ le_bytes 2 (ts_millisecond t).

Definition parameter_bytes (q : ehms_parameter_t) : list N :=
  le_bytes 4 (param_id q) ++ le_bytes 4 (status_val (status q))
  ++ le_bytes 4 (Z.to_N (raw_value q mod 4294967296)) ++ le_bytes 4 (eng_value q)
  ++ timestamp_bytes (timestamp q) ++ [source_bus q; 0].

(** The [sizeof(ehms_engine_snapshot_t) - sizeof(uint32_t)] = 1368 bytes
    covered by the CRC: everything before the trailing [crc32] field. *)
Definition snapshot_payload (s : ehms_engine_snapshot_t) : list N :=
  le_bytes 4 (engine_id s) ++ timestamp_bytes (sample_time s) ++ [0; 0]
  ++ le_bytes 4 (flight_phase s) ++ concat (map parameter_bytes (parameters s))
  ++ le_bytes 4 (health_status s).

(** One iteration [eng] of the engine loop of [daq_execute_cycle]. *)
Definition acquire_engine (env : daq_env) (st : daq_module_state_t) (eng : N)
    : daq_module_state_t :=
  let '(engine_result, st) := daq_read_arinc429_data env (bus_primary (param_config 0)) eng st in
  let '(engine_result, st) :=
    if bool_decide (engine_result = EHMS_OK) then (engine_result, st)
    else daq_read_arinc429_data env (bus_backup (param_config 0)) eng st in
  let '(_, st) :=
    if bool_decide (engine_result = EHMS_OK) then daq_read_1553_data env eng st
    else (engine_result, st) in
  let s := engine_slot st eng in
  let s := set_parameters s
             (map (fun q => daq_check_staleness env st (daq_validate_parameter env q))
                (parameters s)) in
  let s := mk_snapshot (engine_id s) (sample_time s) (flight_phase s) (parameters s)
             (health_status s) (daq_calculate_crc32 (snapshot_payload s)) in
  let s := mk_snapshot (engine_id s) (system_get_timestamp env) (flight_phase s)
             (parameters s) (health_status s) (crc32 s) in
  set_engine_data st (<[N.to_nat eng := s]> (engine_data st)).

(** [daq_execute_cycle] *)
Definition daq_execute_cycle (env : daq_env) (st : daq_module_state_t)
    : ehms_result_t * daq_module_state_t :=
  if negb (is_initialized st) then (EHMS_ERROR_NOT_INIT, st)
  else
    let st := mk_daq_state (is_initialized st) (sys_state st) (u32_inc (cycle_count st))
                (system_get_time_ms env) (sources st) (engine_data st) (last_error st) in
    (EHMS_OK,
     fold_left (acquire_engine env) (map N.of_nat (seq 0 (N.to_nat (config_get_engine_count env))))
       st).

(** [daq_get_engine_snapshot] with a non-NULL output pointer: the result and
    the copied snapshot. *)
Definition daq_get_engine_snapshot (engine_id : N) (st : daq_module_state_t)
    : ehms_result_t * option ehms_engine_snapshot_t :=
  if EHMS_MAX_ENGINES <=? engine_id then (EHMS_ERROR_RANGE, None)
  else if negb (is_initialized st) then (EHMS_ERROR_NOT_INIT, None)
  else
    let s := engine_slot st engine_id in
    if negb (daq_calculate_crc32 (snapshot_payload s) =? crc32 s)
    then (EHMS_ERROR_CRC, None)
    else (EHMS_OK, Some s).

(** [daq_get_parameter] with a non-NULL output pointer. *)
Definition daq_get_parameter (engine_id p : N) (st : daq_module_state_t)
    : ehms_result_t * option ehms_parameter_t :=
  if (EHMS_MAX_ENGINES <=? engine_id) || (EHMS_PARAM_COUNT <=? p) then (EHMS_ERROR_RANGE, None)
  else if negb (is_initialized st) then (EHMS_ERROR_NOT_INIT, None)
  else (EHMS_OK, Some (snap_param (engine_slot st engine_id) p)).

(** [daq_config_t] (the per-bus ARINC settings only reach [arinc429_init]). *)
Record daq_config_t := mk_daq_config { sample_rate_hz : N; cfg_engine_count : N }.

(** Results of the driver initialisations called by [daq_init]. *)
Record daq_init_env := mk_daq_init_env {
  arinc429_init : N -> ehms_result_t;
  milstd1553_init : ehms_result_t }.

(** [daq_init]; [st] is the module state before the call. *)
Definition daq_init (ienv : daq_init_env) (config : option daq_config_t)
    (st : daq_module_state_t) : ehms_result_t * daq_module_state_t :=
  match config with
  | None => (EHMS_ERROR_PARAM, st)
  | Some cfg =>
      if (100 <? sample_rate_hz cfg) || (EHMS_MAX_ENGINES <? cfg_engine_count cfg)
      then (EHMS_ERROR_RANGE, st)
      else
        let '(result, st) := daq_init_sources zero_daq_state in
        let result :=
          fold_left (fun r bus => if bool_decide (r = EHMS_OK) then arinc429_init ienv bus else r)
            (map N.of_nat (seq 0 (N.to_nat EHMS_ARINC429_BUS_COUNT))) result in
        let result := if bool_decide (result = EHMS_OK) then milstd1553_init ienv
                      else result in
        if bool_decide (result = EHMS_OK) then
          (result, mk_daq_state true EHMS_STATE_INIT (cycle_count st) (current_time_ms st)
                     (sources st) (engine_data st) (last_error st))
        else (result, st)
  end.

End Daq.

(* ------------------------------------------------------------------------- *)
(** ** Concrete inputs for the acquisition module *)

Module DaqScenarios.
Import Daq.

(** All driver initialisations succeed. *)
Definition init_env_ok : daq_init_env := mk_daq_init_env (fun _ => EHMS_OK) EHMS_OK.

Definition test_config : daq_config_t := mk_daq_config 100 2.

(** The module state after a successful [daq_init]. *)
Definition initialized_state : daq_module_state_t :=
  snd (daq_init init_env_ok (Some test_config) zero_daq_state).

Definition cycle_ts : ehms_timestamp_t := mk_timestamp 2025 1 15 12 0 1 0.

(** Every bus read fails, the parameter database has no limits, the clock
    reads 1000 ms and one engine is configured. *)
Definition all_reads_fail_env : daq_env :=
  mk_daq_env 1000 cycle_ts 1
    (fun _ _ => (EHMS_ERROR_HARDWARE, 0))
    (fun _ => (EHMS_ERROR_HARDWARE, []))
    (fun _ => (EHMS_ERROR, (0, 0)))
    (fun _ => 1000).

(** Bus 0 fails on every label; bus 1 returns 850 for label 0o310 (N1) and
    0 for the others; two engines are configured. *)
Definition switchover_env : daq_env :=
  mk_daq_env 1000 cycle_ts 2
    (fun bus label =>
       if bus =? 0 then (EHMS_ERROR_HARDWARE, 0)
       else if label =? 200 then (EHMS_OK, 850) else (EHMS_OK, 0))
    (fun _ => (EHMS_OK, [0; 0]))
    (fun _ => (EHMS_ERROR, (0, 0)))
    (fun _ => 1000).

(** A sequence of [daq_update_statistics] calls, [(bus_id, success)]. *)
Definition update_run (calls : list (N * bool)) (st : daq_module_state_t) : daq_module_state_t :=
  fold_left (fun st c => daq_update_statistics c.1 c.2 st) calls st.

End DaqScenarios.

(* ------------------------------------------------------------------------- *)
(** ** Properties of the acquisition module stated by the specification *)

Module DaqSpec.
Import Daq DaqScenarios.

(** The outcomes, in order, of the calls made on bus [b]. *)
Definition bus_outcomes (b : N) (calls : list (N * bool)) : list bool :=
  map snd (filter (fun c => c.1 = b) calls).

(** [outs] contains five consecutive failures. *)
Definition five_consecutive_failures (outs : list bool) : Prop :=
  exists pre suf, outs = pre ++ repeat false 5 ++ suf.

End DaqSpec.

(* ------------------------------------------------------------------------- *)
(** ** Invariants of the alert manager *)

Module AlertProps.
Import Alert.

(** Highest level value among alerts ([EHMS_ALERT_NONE] for none). *)
Definition max_level (l : list ehms_alert_t) : N :=
  fold_right (fun a m => N.max (level_val (level a)) m) 0 l.

(** The alert of slot [i] as [create_alert] fills it from row [th]. *)
Definition row_alert_fields (a : ehms_alert_t) : Prop :=
  is_active a = true /\
  is_latched a = (level_val EHMS_ALERT_WARNING <=? level_val (level a)) /\
  exists th, In th s_thresholds /\ a_param_id a = thr_param_id th /\
    level a = thr_level th /\ ecam_code a = thr_ecam_code th /\
    message a = snprintf_d 64 (thr_message th) (Z.of_N (a_engine_id a) + 1)%Z.

(** What every state reachable from [alert_init] satisfies. *)
Definition alert_wf (st : alert_state_t) : Prop :=
  length (alerts st) = N.to_nat EHMS_MAX_ACTIVE_ALERTS /\
  active_count st <= EHMS_MAX_ACTIVE_ALERTS /\
  next_alert_id st = active_count st + 1 /\
  (forall i a, active_alerts st !! i = Some a ->
     alert_id a = N.of_nat i + 1 /\ row_alert_fields a) /\
  (master_warning st = true ->
     exists a, In a (active_alerts st) /\
       level_val EHMS_ALERT_WARNING <= level_val (level a)) /\
  (master_caution st = true ->
     exists a, In a (active_alerts st) /\
       level_val EHMS_ALERT_CAUTION <= level_val (level a) < level_val EHMS_ALERT_WARNING) /\
  level_val (highest_level st) = max_level (active_alerts st).

End AlertProps.

(* ------------------------------------------------------------------------- *)
(** ** Acquisition cycles and derived states *)

Module DaqProps.
Import Daq DaqScenarios.

(** Successive calls of [daq_execute_cycle], one per environment. *)
Definition daq_cycles (envs : list daq_env) (st : daq_module_state_t) : daq_module_state_t :=
  fold_left (fun st env => snd (daq_execute_cycle env st)) envs st.

(** The slot [eng] as [acquire_engine] leaves it, from the state [st2]
    reached after the bus reads. *)
Definition acquired_slot (env : daq_env) (st2 : daq_module_state_t) (eng : N) :=
  let s := engine_slot st2 eng in
  let v := set_parameters s
             (map (fun q => daq_check_staleness env st2 (daq_validate_parameter env q))
                (parameters s)) in
  mk_snapshot (engine_id v) (system_get_timestamp env) (flight_phase v) (parameters v)
    (health_status v) (daq_calculate_crc32 (snapshot_payload v)).

(** The fields of a slot that no code of the cycle writes. *)
Definition fixed_fields (s : ehms_engine_snapshot_t) : N * N * N :=
  (engine_id s, flight_phase s, health_status s).

(** The state [daq_init] clears the module to: [memset] followed by
    [daq_init_sources]. *)
Definition daq_cleared_state : daq_module_state_t := snd (daq_init_sources zero_daq_state).

(** The state after a successful [daq_init]. *)
Definition daq_init_state : daq_module_state_t :=
  mk_daq_state true EHMS_STATE_INIT (cycle_count daq_cleared_state)
    (current_time_ms daq_cleared_state) (sources daq_cleared_state)
    (engine_data daq_cleared_state) (last_error daq_cleared_state).

(** The identifying fields of a parameter: [param_id], [timestamp] and
    [source_bus]. *)
Definition param_meta (q : ehms_parameter_t) : N * ehms_timestamp_t * N :=
  (param_id q, timestamp q, source_bus q).

(** [daq_init] with the ARINC driver failing, called on an initialised module. *)
Definition arinc_init_fails : daq_init_env :=
  mk_daq_init_env (fun _ => EHMS_ERROR_HARDWARE) EHMS_OK.

(** The quiet NaN [0x7FC00000] as the value of an otherwise valid sample. *)
Definition nan_sample : ehms_parameter_t :=
  mk_parameter EHMS_PARAM_EGT EHMS_PARAM_VALID 0 2143289344 zero_timestamp 0.

(** Limits [0.0 .. 1.0] for every parameter. *)
Definition limits_env : daq_env :=
  mk_daq_env 1000 cycle_ts 1 (fun _ _ => (EHMS_OK, 0)) (fun _ => (EHMS_OK, []))
    (fun _ => (EHMS_OK, (0, 1065353216))) (fun _ => 1000).
End DaqProps.

(* ========================================================================= *)
(** * Proofs *)
(* ========================================================================= *)

Module AlertFacts.
Import Alert AlertScenarios AlertSpec.

Lemma level_val_inj l1 l2 : level_val l1 = level_val l2 -> l1 = l2.
Proof. destruct l1, l2; simpl; congruence. Qed.

Lemma same_tuple_key th s a :
  same_tuple th s a = true <-> alert_key a = row_key s th.
Proof.
  unfold same_tuple, alert_key, row_key.
  rewrite !andb_true_iff, !N.eqb_eq, bool_decide_eq_true.
  split.
  - intros [[-> ->] ->]. reflexivity.
  - intros [= -> -> Hl]. apply level_val_inj in Hl. auto.
Qed.

Lemma take_S_insert {A} (l : list A) (n : nat) (x : A) :
  take (S n) (<[n:=x]> l) = take n l ++ (if decide (n < length l)%nat then [x] else []).
Proof.
  revert n. induction l as [|y l IH]; intros [|n]; simpl; try reflexivity.
  rewrite IH.
  destruct (decide (n < length l)%nat), (decide (S n < S (length l))%nat); try lia; done.
Qed.

Lemma u32_inc_small c : c < 32 -> u32_inc c = c + 1.
Proof. intros H. unfold u32_inc, u32_mod. apply N.mod_small. lia. Qed.

Lemma to_nat_u32_inc c : c < 32 -> N.to_nat (u32_inc c) = S (N.to_nat c).
Proof. intros H. rewrite u32_inc_small by exact H. lia. Qed.

(** Creating an alert appends it to the active set (when its slot exists). *)
Lemma create_alert_active th s st :
  active_count st < EHMS_MAX_ACTIVE_ALERTS ->
  exists new,
    active_alerts (create_alert th s st) = active_alerts st ++ new /\
    Forall (fun a => alert_key a = row_key s th) new /\
    (length new <= 1)%nat /\
    ((N.to_nat (active_count st) < length (alerts st))%nat -> new <> []).
Proof.
  intros Hc. unfold active_alerts, create_alert; simpl.
  rewrite to_nat_u32_inc by exact Hc.
  rewrite take_S_insert.
  eexists; split; [reflexivity|].
  case_decide as Hd; (split; [|split]).
  - repeat constructor.
  - simpl; lia.
  - done.
  - constructor.
  - simpl; lia.
  - intros Hlt. lia.
Qed.

Lemma create_alert_count th s st :
  active_count st < EHMS_MAX_ACTIVE_ALERTS ->
  active_count (create_alert th s st) = active_count st + 1.
Proof. intros Hc. apply u32_inc_small. exact Hc. Qed.

Lemma create_alert_length th s st :
  length (alerts (create_alert th s st)) = length (alerts st).
Proof. apply length_insert. Qed.

(** The three outcomes of one iteration of the threshold loop. *)
Lemma process_threshold_cases s st th :
  process_threshold s st th = st \/
  (is_valid (status (snap_param s (thr_param_id th))) = true /\
   exceeded th (snap_param s (thr_param_id th)) = true /\
   existsb (same_tuple th s) (active_alerts st) = false /\
   active_count st < EHMS_MAX_ACTIVE_ALERTS /\
   process_threshold s st th = create_alert th s st).
Proof.
  unfold process_threshold.
  destruct (is_valid _) eqn:Hv; simpl; [|auto].
  destruct (exceeded _ _) eqn:He; [|auto].
  destruct (existsb _ _) eqn:Hx; simpl; [auto|].
  destruct (active_count st <? EHMS_MAX_ACTIVE_ALERTS) eqn:Hc; [|auto].
  right. apply N.ltb_lt in Hc. auto.
Qed.

Lemma process_threshold_appends s st th :
  exists new,
    active_alerts (process_threshold s st th) = active_alerts st ++ new /\
    Forall (from_row s th) new /\
    (length new <= 1)%nat /\
    (new <> [] -> existsb (same_tuple th s) (active_alerts st) = false).
Proof.
  destruct (process_threshold_cases s st th) as [-> | (Hv & He & Hx & Hc & ->)].
  - exists []. rewrite app_nil_r. split; [done|]. split; [constructor|].
    split; [simpl; lia | done].
  - destruct (create_alert_active th s st Hc) as (new & Heq & Hk & Hl & _).
    exists new. split; [exact Heq|]. split; [|auto].
    eapply Forall_impl; [exact Hk|]. intros a Ha. split; auto.
Qed.

Lemma process_threshold_count_mono s st th :
  active_count st <= active_count (process_threshold s st th).
Proof.
  destruct (process_threshold_cases s st th) as [-> | (_ & _ & _ & Hc & ->)].
  - lia.
  - rewrite create_alert_count by exact Hc. lia.
Qed.

Lemma process_threshold_length s st th :
  length (alerts (process_threshold s st th)) = length (alerts st).
Proof.
  destruct (process_threshold_cases s st th) as [-> | (_ & _ & _ & _ & ->)];
    [done | apply create_alert_length].
Qed.

(** The whole threshold loop only appends to the active set. *)
Lemma process_rows_appends s ths st :
  exists new,
    active_alerts (fold_left (process_threshold s) ths st) = active_alerts st ++ new /\
    Forall (fun a => exists th, th ∈ ths /\ from_row s th a) new.
Proof.
  revert st. induction ths as [|th ths IH]; intros st; simpl.
  - exists []. rewrite app_nil_r. split; [done | constructor].
  - destruct (process_threshold_appends s st th) as (n1 & H1 & F1 & _ & _).
    destruct (IH (process_threshold s st th)) as (n2 & H2 & F2).
    exists (n1 ++ n2). rewrite H2, H1, app_assoc. split; [done|].
    apply Forall_app. split.
    + eapply Forall_impl; [exact F1|]. intros a Ha. exists th. split; [left|]; auto.
    + eapply Forall_impl; [exact F2|]. intros a (th' & Hin & Ha).
      exists th'. split; [right|]; auto.
Qed.

Lemma process_rows_count_mono s ths st :
  active_count st <= active_count (fold_left (process_threshold s) ths st).
Proof.
  revert st. induction ths as [|th ths IH]; intros st; simpl; [lia|].
  specialize (IH (process_threshold s st th)).
  pose proof (process_threshold_count_mono s st th). lia.
Qed.

Lemma process_rows_length s ths st :
  length (alerts (fold_left (process_threshold s) ths st)) = length (alerts st).
Proof.
  revert st. induction ths as [|th ths IH]; intros st; simpl; [done|].
  rewrite IH. apply process_threshold_length.
Qed.

(** *** Helper lemmas *)

Lemma in_active_persists s ths st a :
  In a (active_alerts st) ->
  In a (active_alerts (fold_left (process_threshold s) ths st)).
Proof.
  intros Hin. destruct (process_rows_appends s ths st) as (new & Heq & _).
  rewrite Heq. apply in_or_app. auto.
Qed.

Lemma process_rows_fixed s ths st :
  (forall th, process_threshold s st th = st) ->
  fold_left (process_threshold s) ths st = st.
Proof.
  intros H. induction ths as [|th ths IH]; simpl; [done|]. rewrite H. exact IH.
Qed.

Lemma alert_reachable_length st :
  alert_reachable st -> length (alerts st) = N.to_nat EHMS_MAX_ACTIVE_ALERTS.
Proof.
  induction 1 as [| s st _ IH | l st _ IH].
  - apply repeat_length.
  - destruct s as [s|]; cbn [alert_process_snapshot snd]; [|exact IH].
    rewrite process_rows_length. exact IH.
  - unfold alert_acknowledge; simpl.
    destruct (_ <=? _); [exact IH|]. destruct (_ <=? _); exact IH.
Qed.

Lemma existsb_false_key th s l :
  existsb (same_tuple th s) l = false ->
  row_key s th ∉ map alert_key l.
Proof.
  intros Hx Hin. apply list_elem_of_In in Hin. apply in_map_iff in Hin as (a & Hk & Ha).
  assert (same_tuple th s a = true) as Hs by (apply same_tuple_key; exact Hk).
  assert (existsb (same_tuple th s) l = true) as Ht
    by (apply existsb_exists; eauto).
  congruence.
Qed.

Lemma process_threshold_nodup s st th :
  NoDup (map alert_key (active_alerts st)) ->
  NoDup (map alert_key (active_alerts (process_threshold s st th))).
Proof.
  intros Hnd.
  destruct (process_threshold_appends s st th) as (new & Heq & Hf & Hl & Hx).
  rewrite Heq, map_app.
  destruct new as [|a [|b new]]; simpl in Hl; try lia.
  - rewrite app_nil_r. exact Hnd.
  - apply Forall_cons in Hf as [(Hk & _) _].
    specialize (Hx ltac:(discriminate)).
    apply NoDup_app. split; [exact Hnd|]. split; [|apply NoDup_singleton].
    intros k Hk1 Hk2. simpl in Hk2. apply list_elem_of_singleton in Hk2. subst k.
    rewrite Hk in Hk1. exact (existsb_false_key th s _ Hx Hk1).
Qed.

Lemma process_rows_highest_mono s ths st :
  level_val (highest_level st) <=
  level_val (highest_level (fold_left (process_threshold s) ths st)).
Proof.
  revert st. induction ths as [|th ths IH]; intros st; simpl; [lia|].
  etransitivity; [|apply IH].
  destruct (process_threshold_cases s st th) as [-> | (_ & _ & _ & _ & ->)]; [lia|].
  unfold create_alert; simpl.
  destruct (level_val (highest_level st) <? level_val (thr_level th)) eqn:E;
    [apply N.ltb_lt in E|]; lia.
Qed.

Lemma alert_step_highest_mono c st :
  level_val (highest_level st) <= level_val (highest_level (alert_step c st)).
Proof.
  destruct c as [[s|]|l]; cbn [alert_step alert_process_snapshot snd].
  - apply process_rows_highest_mono.
  - lia.
  - unfold alert_acknowledge; simpl.
    destruct (_ <=? _); simpl; [lia|]. destruct (_ <=? _); simpl; lia.
Qed.

Lemma alert_run_highest_mono cs st :
  level_val (highest_level st) <= level_val (highest_level (alert_run cs st)).
Proof.
  revert st. induction cs as [|c cs IH]; intros st; simpl; [lia|].
  etransitivity; [apply (alert_step_highest_mono c st) | apply IH].
Qed.

Lemma rows_raise_or_full s ths th st :
  length (alerts st) = N.to_nat EHMS_MAX_ACTIVE_ALERTS ->
  In th ths ->
  is_valid (status (snap_param s (thr_param_id th))) = true ->
  exceeded th (snap_param s (thr_param_id th)) = true ->
  (exists a, In a (active_alerts (fold_left (process_threshold s) ths st)) /\
             alert_key a = row_key s th) \/
  EHMS_MAX_ACTIVE_ALERTS <= active_count (fold_left (process_threshold s) ths st).
Proof.
  revert st. induction ths as [|th' ths IH]; intros st Hlen Hin Hv He; [done|].
  simpl. destruct Hin as [-> | Hin].
  - assert (process_threshold s st th =
            if negb (existsb (same_tuple th s) (active_alerts st)) &&
               (active_count st <? EHMS_MAX_ACTIVE_ALERTS)
            then create_alert th s st else st) as Hpt
      by (unfold process_threshold; rewrite Hv, He; reflexivity).
    rewrite Hpt.
    destruct (existsb (same_tuple th s) (active_alerts st)) eqn:Hx; simpl.
    + left. apply existsb_exists in Hx as (a & Ha & Hs).
      exists a. split; [apply in_active_persists; exact Ha|].
      apply same_tuple_key. exact Hs.
    + destruct (active_count st <? EHMS_MAX_ACTIVE_ALERTS) eqn:Hc.
      * apply N.ltb_lt in Hc. left.
        destruct (create_alert_active th s st Hc) as (new & Heq & Hk & _ & Hne).
        destruct new as [|a new].
        { exfalso. apply Hne; [|done]. rewrite Hlen. lia. }
        exists a. split.
        -- apply in_active_persists. rewrite Heq. apply in_or_app. right. left. done.
        -- apply Forall_cons in Hk as [Hk _]. exact Hk.
      * apply N.ltb_ge in Hc. right.
        pose proof (process_rows_count_mono s ths st). lia.
  - apply IH; auto. rewrite process_threshold_length. exact Hlen.
Qed.

Lemma nth_insert_same {A} (l : list A) j x d :
  nth j (<[j:=x]> l) d = if decide (j < length l)%nat then x else nth j l d.
Proof.
  revert j. induction l as [|y l IH]; intros [|j]; simpl; try reflexivity.
  rewrite IH. destruct (decide (j < length l)%nat), (decide (S j < S (length l))%nat);
    try lia; done.
Qed.

Lemma nth_insert_other {A} (l : list A) i j x d :
  i <> j -> nth i (<[j:=x]> l) d = nth i l d.
Proof.
  revert i j. induction l as [|y l IH]; intros [|i] [|j] Hne; simpl; try done.
  apply IH. lia.
Qed.

Lemma snap_param_set_eng_value s p v i :
  status (snap_param (set_eng_value s p v) i) = status (snap_param s i) /\
  (i <> p -> snap_param (set_eng_value s p v) i = snap_param s i).
Proof.
  unfold snap_param, set_eng_value; simpl.
  destruct (decide (i = p)) as [-> | Hne].
  - split; [|done]. rewrite nth_insert_same. case_decide; reflexivity.
  - split; [|intros _]; rewrite nth_insert_other by lia; reflexivity.
Qed.

Lemma process_rows_nodup s ths st :
  NoDup (map alert_key (active_alerts st)) ->
  NoDup (map alert_key (active_alerts (fold_left (process_threshold s) ths st))).
Proof.
  revert st. induction ths as [|th ths IH]; intros st Hnd; simpl; [exact Hnd|].
  apply IH. apply process_threshold_nodup. exact Hnd.
Qed.

Lemma alert_run_reachable cs st :
  alert_reachable st -> alert_reachable (alert_run cs st).
Proof.
  revert st. induction cs as [|[s|l] cs IH]; intros st Hr; simpl; [exact Hr| |];
    apply IH; constructor; exact Hr.
Qed.

Lemma process_threshold_set_eng_value s p v st th :
  is_valid (status (snap_param s p)) = false ->
  process_threshold (set_eng_value s p v) st th = process_threshold s st th.
Proof.
  intros Hp. unfold process_threshold.
  destruct (snap_param_set_eng_value s p v (thr_param_id th)) as [Hs Hne].
  destruct (decide (thr_param_id th = p)) as [Heq | Hneq].
  - rewrite Hs, Heq, Hp. reflexivity.
  - rewrite (Hne Hneq). reflexivity.
Qed.

(** The EGT Caution row of [s_thresholds]. *)
Lemma egt_caution_row_in :
  In (mk_threshold EHMS_PARAM_EGT EHMS_ALERT_CAUTION (f32_of_pos_int 950) true 4097
        "ENG %d EGT HIGH"%string) s_thresholds.
Proof. left. reflexivity. Qed.

(** *** Claims *)

(** C3 (corrected).  [alert_process_snapshot] never clears an alert: the
    active set after the call is the active set before it followed by the
    alerts the call creates, so an active alert, latched or not, stays in
    the set with all its fields ([clear_time] included) unchanged even when
    its parameter is [Valid] and no longer exceeded. *)
Theorem process_snapshot_never_clears s st :
  exists new,
    active_alerts (snd (alert_process_snapshot (Some s) st)) = active_alerts st ++ new.
Proof.
  destruct (process_rows_appends s s_thresholds st) as (new & Heq & _).
  exists new. exact Heq.
Qed.

(** C3 counterexample: engine 2 raised the non-latched EGT Caution at
    950 C; a [Valid] EGT of 900 C (not exceeded) leaves that alert in the
    active set. *)
Lemma recovered_egt_caution_stays_active : ~ clears_on_recovery.
Proof.
  intros H.
  pose (a := nth 0 (active_alerts egt_caution_state) zero_alert).
  refine (H egt_caution_state (snap_egt 1 900) _ 0%nat a egt_caution_row_in
            _ _ _ _ _ 0%nat a _ _); vm_compute; reflexivity.
Qed.

(** C4 counterexample: a single tick with EGT at 950 C on engine 2 after
    [alert_init] already allocates an alert. *)
Lemma alert_allocated_on_first_tick : ~ debounced_allocation.
Proof.
  intros H. specialize (H [snap_egt 1 950] ltac:(simpl; lia)).
  vm_compute in H. discriminate H.
Qed.

(** C4 (corrected).  No debounce is applied: in any reachable state, when
    [alert_process_snapshot] observes a [Valid] exceedance of a threshold
    row, after that very call the active set holds an alert for the tuple
    [(engine_id, param_id, level)], unless the active set is full. *)
Theorem alert_raised_on_first_exceedance st s th :
  alert_reachable st ->
  In th s_thresholds ->
  is_valid (status (snap_param s (thr_param_id th))) = true ->
  exceeded th (snap_param s (thr_param_id th)) = true ->
  (exists a, In a (active_alerts (snd (alert_process_snapshot (Some s) st))) /\
             alert_key a = row_key s th) \/
  EHMS_MAX_ACTIVE_ALERTS <= active_count (snd (alert_process_snapshot (Some s) st)).
Proof.
  intros Hr Hin Hv He. apply rows_raise_or_full; auto.
  apply alert_reachable_length. exact Hr.
Qed.

Lemma alert_raised_on_first_exceedance_witness :
  (exists a, In a (active_alerts (snd (alert_process_snapshot (Some (snap_egt 1 950))
                                         alert_initial_state))) /\
             alert_key a = (1, EHMS_PARAM_EGT, level_val EHMS_ALERT_CAUTION)) \/
  EHMS_MAX_ACTIVE_ALERTS <=
    active_count (snd (alert_process_snapshot (Some (snap_egt 1 950)) alert_initial_state)).
Proof.
  apply (alert_raised_on_first_exceedance alert_initial_state (snap_egt 1 950) _
           reach_init egt_caution_row_in); vm_compute; reflexivity.
Defined.

(** C5 (corrected).  On a full active set ([active_count = 32]) the call
    drops every new exceedance silently: it returns [EHMS_OK] and the state
    (active set, [active_count], master indicators) is unchanged. *)
Theorem full_active_set_drops_silently st s :
  active_count st = EHMS_MAX_ACTIVE_ALERTS ->
  alert_process_snapshot (Some s) st = (EHMS_OK, st).
Proof.
  intros Hc. cbn [alert_process_snapshot]. f_equal.
  apply process_rows_fixed. intros th.
  assert ((active_count st <? EHMS_MAX_ACTIVE_ALERTS) = false) as E
    by (apply N.ltb_ge; lia).
  unfold process_threshold. rewrite E, andb_false_r.
  destruct (is_valid _), (exceeded _ _); reflexivity.
Qed.

Lemma full_active_set_drops_silently_witness :
  active_count full_state = EHMS_MAX_ACTIVE_ALERTS /\
  alert_process_snapshot (Some (snap_all_exceeded 3)) full_state = (EHMS_OK, full_state).
Proof.
  split; [vm_compute; reflexivity|].
  apply full_active_set_drops_silently. vm_compute. reflexivity.
Defined.

(** C5 counterexample: with 32 alerts for engines 1-3, the EGT Caution
    exceedance of engine 4 is dropped but the call returns [EHMS_OK]. *)
Lemma full_active_set_returns_ok : ~ full_set_reports_error.
Proof.
  intros H.
  destruct (H full_state (snap_all_exceeded 3) _ ltac:(vm_compute; reflexivity)
              egt_caution_row_in ltac:(vm_compute; reflexivity)
              ltac:(vm_compute; reflexivity) ltac:(vm_compute; reflexivity))
    as [Hne _].
  apply Hne. vm_compute. reflexivity.
Qed.

(** C6 (corrected).  [alert_acknowledge(level)] clears master-warning when
    [level >= Warning], otherwise clears master-caution when
    [level = Caution], and does nothing for lower levels; in particular
    [acknowledge(Caution)] leaves master-warning as it was.  It returns
    [EHMS_OK] and leaves the alert array, [active_count], [next_alert_id]
    and [highest_level] untouched. *)
Theorem acknowledge_clears_own_indicator l st :
  fst (alert_acknowledge l st) = EHMS_OK /\
  master_warning (snd (alert_acknowledge l st)) =
    (if level_val EHMS_ALERT_WARNING <=? level_val l then false else master_warning st) /\
  master_caution (snd (alert_acknowledge l st)) =
    (if level_val l =? level_val EHMS_ALERT_CAUTION then false else master_caution st) /\
  alerts (snd (alert_acknowledge l st)) = alerts st /\
  active_count (snd (alert_acknowledge l st)) = active_count st /\
  next_alert_id (snd (alert_acknowledge l st)) = next_alert_id st /\
  highest_level (snd (alert_acknowledge l st)) = highest_level st.
Proof. destruct l; repeat split. Qed.

(** C6 counterexample: with master-warning and master-caution both on,
    [acknowledge(Caution)] leaves master-warning on. *)
Lemma acknowledge_caution_keeps_master_warning : ~ acknowledge_level_and_above.
Proof.
  intros H. destruct (H EHMS_ALERT_CAUTION full_state) as (_ & Hw & _).
  specialize (Hw ltac:(simpl; lia)). vm_compute in Hw. discriminate Hw.
Qed.

(** C7.  In every state reachable from [alert_init], the active set holds
    at most one alert per tuple [(engine_id, param_id, level)]. *)
Theorem at_most_one_alert_per_tuple st :
  alert_reachable st -> NoDup (map alert_key (active_alerts st)).
Proof.
  induction 1 as [| s st _ IH | l st _ IH].
  - unfold active_alerts. simpl. constructor.
  - destruct s as [s|]; cbn [alert_process_snapshot snd]; [|exact IH].
    apply process_rows_nodup. exact IH.
  - unfold alert_acknowledge, active_alerts in *; simpl.
    destruct (_ <=? _); [exact IH|]. destruct (_ <=? _); exact IH.
Qed.

Lemma at_most_one_alert_per_tuple_witness :
  alert_reachable full_state /\ NoDup (map alert_key (active_alerts full_state)).
Proof.
  assert (alert_reachable full_state) as Hr
    by (apply alert_run_reachable; constructor).
  split; [exact Hr|]. apply at_most_one_alert_per_tuple. exact Hr.
Defined.

(** C9.  A parameter whose status is not [Valid] is never evaluated: its
    cached engineering value does not influence the call, whatever it is;
    and every alert the call adds is for a parameter that is [Valid] in the
    snapshot. *)
Theorem invalid_parameter_never_alerts st s p v :
  is_valid (status (snap_param s p)) = false ->
  alert_process_snapshot (Some (set_eng_value s p v)) st = alert_process_snapshot (Some s) st /\
  exists new,
    active_alerts (snd (alert_process_snapshot (Some s) st)) = active_alerts st ++ new /\
    Forall (fun a => is_valid (status (snap_param s (a_param_id a))) = true) new.
Proof.
  intros Hp. split.
  - cbn [alert_process_snapshot]. f_equal.
    generalize s_thresholds as ths. intros ths. revert st.
    induction ths as [|th ths IH]; intros st; simpl; [done|].
    rewrite process_threshold_set_eng_value by exact Hp. apply IH.
  - destruct (process_rows_appends s s_thresholds st) as (new & Heq & F).
    exists new. split; [exact Heq|].
    eapply Forall_impl; [exact F|]. intros a (th & _ & Hk & Hv & _).
    unfold alert_key, row_key in Hk. injection Hk as _ Hpa _.
    rewrite Hpa. exact Hv.
Qed.

Lemma invalid_parameter_never_alerts_witness :
  let s := set_status (snap_egt 0 1200) EHMS_PARAM_EGT EHMS_PARAM_STALE in
  is_valid (status (snap_param s EHMS_PARAM_EGT)) = false /\
  alert_process_snapshot (Some (set_eng_value s EHMS_PARAM_EGT (f32_of_pos_int 2000)))
    alert_initial_state = alert_process_snapshot (Some s) alert_initial_state.
Proof.
  intros s. split; [vm_compute; reflexivity|].
  apply (invalid_parameter_never_alerts alert_initial_state s EHMS_PARAM_EGT
           (f32_of_pos_int 2000)).
  vm_compute. reflexivity.
Defined.

(** C10.  Along any sequence of [alert_process_snapshot] and
    [alert_acknowledge] calls after [alert_init], the level reported by
    [alert_get_highest_level] never decreases. *)
Theorem highest_level_never_decreases cs1 cs2 :
  level_val (alert_get_highest_level (alert_run cs1 alert_initial_state)) <=
  level_val (alert_get_highest_level (alert_run (cs1 ++ cs2) alert_initial_state)).
Proof.
  unfold alert_get_highest_level. unfold alert_run at 2. rewrite fold_left_app.
  apply (alert_run_highest_mono cs2).
Qed.

End AlertFacts.

Module DaqFacts.
Import Daq DaqScenarios DaqSpec.

(** The sources array keeps its length. *)
Lemma update_statistics_length b ok st :
  length (sources (daq_update_statistics b ok st)) = length (sources st).
Proof.
  unfold daq_update_statistics. destruct (b <? EHMS_ARINC429_BUS_COUNT); simpl;
    [apply length_insert | reflexivity].
Qed.

Lemma update_run_length calls st :
  length (sources (update_run calls st)) = length (sources st).
Proof.
  revert st. induction calls as [|[b' ok] calls IH]; intros st; simpl; [reflexivity|].
  unfold update_run in IH. rewrite IH. apply update_statistics_length.
Qed.

(** A call on another bus leaves the source of [b] alone. *)
Lemma update_statistics_other b' b ok st :
  b' <> b -> source_slot (daq_update_statistics b' ok st) b = source_slot st b.
Proof.
  intros Hne. unfold daq_update_statistics, source_slot.
  destruct (b' <? EHMS_ARINC429_BUS_COUNT); simpl; [|reflexivity].
  apply AlertFacts.nth_insert_other. lia.
Qed.

(** The source of [b] after a call on [b]. *)
Lemma update_statistics_same b ok st :
  b < EHMS_ARINC429_BUS_COUNT -> (N.to_nat b < length (sources st))%nat ->
  source_slot (daq_update_statistics b ok st) b =
  (let s := source_slot st b in
   if negb ok then
     let fails := u32_inc (failure_count s) in
     mk_source (if DAQ_MAX_CONSECUTIVE_FAILURES <=? fails then false else src_is_active s)
       (src_is_primary s) (src_bus_id s) (current_time_ms st) fails
       (u32_inc (total_samples s)) (u32_inc (error_samples s))
   else
     mk_source (src_is_active s) (src_is_primary s) (src_bus_id s)
       (current_time_ms st) 0 (u32_inc (total_samples s)) (error_samples s)).
Proof.
  intros Hb Hlen. unfold daq_update_statistics.
  replace (b <? EHMS_ARINC429_BUS_COUNT) with true by (symmetry; apply N.ltb_lt; exact Hb).
  unfold source_slot at 1. simpl. rewrite AlertFacts.nth_insert_same.
  destruct (decide _); [|lia]. destruct ok; reflexivity.
Qed.

(** Once inactive, a source stays inactive. *)
Lemma update_run_inactive b calls st :
  src_is_active (source_slot st b) = false ->
  src_is_active (source_slot (update_run calls st) b) = false.
Proof.
  revert st. induction calls as [|[b' ok] calls IH]; intros st Hin; simpl; [exact Hin|].
  apply IH. destruct (decide (b' = b)) as [->|Hne].
  - unfold daq_update_statistics. destruct (b <? EHMS_ARINC429_BUS_COUNT); [|exact Hin].
    unfold source_slot in *. simpl. rewrite AlertFacts.nth_insert_same.
    destruct (decide _); [|exact Hin]. rewrite Hin. destruct ok; simpl; [reflexivity|].
    destruct (_ <=? _); reflexivity.
  - rewrite update_statistics_other by exact Hne. exact Hin.
Qed.

(** A success ends any run of failures shorter than five. *)
Lemma five_failures_after_success c R :
  (c < 5)%nat ->
  five_consecutive_failures (repeat false c ++ true :: R) <-> five_consecutive_failures R.
Proof.
  intros Hc. split.
  - intros (pre & suf & H).
    destruct (decide (c < length pre)%nat) as [Hlt|Hge].
    + exists (drop (S c) pre), suf.
      assert (Hd := f_equal (drop (S c)) H).
      change (true :: R) with ([true] ++ R) in Hd. rewrite app_assoc in Hd.
      rewrite drop_app_length' in Hd by (rewrite length_app, repeat_length; simpl; lia).
      rewrite Hd, drop_app_le by lia. reflexivity.
    + exfalso.
      assert (Hl : nth_error (repeat false c ++ true :: R) c = Some true).
      { rewrite nth_error_app2 by (rewrite repeat_length; lia).
        rewrite repeat_length, Nat.sub_diag. reflexivity. }
      assert (Hr : nth_error (pre ++ repeat false 5 ++ suf) c = Some false).
      { rewrite nth_error_app2 by lia.
        rewrite nth_error_app1 by (rewrite repeat_length; lia).
        apply nth_error_repeat. lia. }
      rewrite H, Hr in Hl. discriminate.
  - intros (pre & suf & H). exists (repeat false c ++ true :: pre), suf.
    rewrite H, <- app_assoc. reflexivity.
Qed.

(** Five failures in a row are found in any run that starts with them. *)
Lemma five_failures_prefix R : five_consecutive_failures (repeat false 5 ++ R).
Proof. exists [], R. reflexivity. Qed.

(** No run of five failures in fewer than five outcomes. *)
Lemma five_failures_short c :
  (c < 5)%nat -> ~ five_consecutive_failures (repeat false c).
Proof.
  intros Hc (pre & suf & H). assert (Hl := f_equal length H).
  rewrite repeat_length, !length_app, repeat_length in Hl. lia.
Qed.

Lemma repeat_snoc {A} (x : A) c l : repeat x c ++ x :: l = x :: repeat x c ++ l.
Proof. induction c as [|c IH]; simpl; [reflexivity|]. rewrite IH. reflexivity. Qed.

Lemma update_run_cons c calls st :
  update_run (c :: calls) st = update_run calls (daq_update_statistics c.1 c.2 st).
Proof. reflexivity. Qed.

Lemma bus_outcomes_cons b b' ok calls :
  bus_outcomes b ((b', ok) :: calls) =
  if decide (b' = b) then ok :: bus_outcomes b calls else bus_outcomes b calls.
Proof. unfold bus_outcomes. rewrite filter_cons. simpl. destruct (decide _); reflexivity. Qed.

(** While a source is active its failure count [c] is below five, and it
    becomes inactive exactly when the pending [c] failures followed by the
    later outcomes contain five consecutive failures. *)
Lemma update_run_active b calls :
  b < EHMS_ARINC429_BUS_COUNT ->
  forall st c, length (sources st) = N.to_nat EHMS_ARINC429_BUS_COUNT ->
  src_is_active (source_slot st b) = true ->
  failure_count (source_slot st b) = N.of_nat c -> (c < 5)%nat ->
  (src_is_active (source_slot (update_run calls st) b) = false <->
   five_consecutive_failures (repeat false c ++ bus_outcomes b calls)).
Proof.
  intros Hb. induction calls as [|[b' ok] calls IH]; intros st c Hlen Hact Hfc Hc.
  - simpl. rewrite Hact, app_nil_r. split; [discriminate|].
    intros Hf. exfalso. exact (five_failures_short c Hc Hf).
  - rewrite update_run_cons, bus_outcomes_cons. simpl.
    assert (Hlen' : length (sources (daq_update_statistics b' ok st)) =
                    N.to_nat EHMS_ARINC429_BUS_COUNT)
      by (rewrite update_statistics_length; exact Hlen).
    destruct (decide (b' = b)) as [->|Hne].
    + assert (Hs := update_statistics_same b ok st Hb ltac:(rewrite Hlen; unfold EHMS_ARINC429_BUS_COUNT in *; lia)).
      cbv zeta in Hs. rewrite Hact, Hfc in Hs.
      assert (Hinc : u32_inc (N.of_nat c) = N.of_nat (S c))
        by (unfold u32_inc, u32_mod; rewrite N.mod_small; lia).
      destruct ok; simpl in Hs.
      * rewrite five_failures_after_success by exact Hc.
        apply (IH _ 0%nat Hlen'); [rewrite Hs; reflexivity | rewrite Hs; reflexivity | lia].
      * rewrite repeat_snoc. rewrite Hinc in Hs.
        destruct (decide (c = 4%nat)) as [->|Hc4].
        -- split; intros _; [apply five_failures_prefix|].
           apply update_run_inactive. rewrite Hs. reflexivity.
        -- assert (Hle : (DAQ_MAX_CONSECUTIVE_FAILURES <=? N.of_nat (S c)) = false)
             by (apply N.leb_gt; unfold DAQ_MAX_CONSECUTIVE_FAILURES; lia).
           rewrite Hle in Hs.
           apply (IH _ (S c) Hlen'); [rewrite Hs; reflexivity | rewrite Hs; reflexivity | lia].
    + rewrite <- (update_statistics_other b' b ok st Hne) in Hact, Hfc.
      exact (IH _ c Hlen' Hact Hfc Hc).
Qed.

(** No row of [s_param_config] has bus 1, the backup bus of row 0, as its
    primary bus. *)
Lemma no_param_primary_on_backup :
  Forall (fun p => bus_primary (param_config p) <> bus_backup (param_config 0))
    (map N.of_nat (seq 0 (N.to_nat EHMS_PARAM_COUNT))).
Proof. apply (bool_decide_unpack _). vm_compute. exact I. Qed.

Lemma read_arinc_fold_skip env bus_id eng ps acc :
  Forall (fun p => bus_primary (param_config p) <> bus_id) ps ->
  fold_left (read_arinc_param env bus_id eng) ps acc = acc.
Proof.
  revert acc. induction ps as [|p ps IH]; intros [r st] Hps; cbn [fold_left]; [reflexivity|].
  apply Forall_cons in Hps as [Hp Hps].
  assert (Hstep : read_arinc_param env bus_id eng (r, st) p = (r, st))
    by (unfold read_arinc_param; apply N.eqb_neq in Hp; rewrite Hp; reflexivity).
  rewrite Hstep. exact (IH _ Hps).
Qed.

(** The backup read of [daq_execute_cycle] reads no word and changes nothing. *)
Lemma backup_read_is_noop env eng st :
  daq_read_arinc429_data env (bus_backup (param_config 0)) eng st = (EHMS_OK, st).
Proof. apply read_arinc_fold_skip, no_param_primary_on_backup. Qed.

(** * C1: the CRC stored by an acquisition cycle does not match the stored
    snapshot.  From the initialised module, one cycle in which every bus read
    fails returns [EHMS_OK], and the following [daq_get_engine_snapshot] of
    engine 0 (acquired in that cycle) returns [EHMS_ERROR_CRC]: the CRC is
    computed before [sample_time] is overwritten. *)
Theorem snapshot_crc_stale_after_cycle :
  let '(r, st) := daq_execute_cycle all_reads_fail_env initialized_state in
  (is_initialized initialized_state = true /\
  (0 < config_get_engine_count all_reads_fail_env) /\
  r = EHMS_OK /\
  fst (daq_get_engine_snapshot 0 st) = EHMS_ERROR_CRC /\
  crc32 (engine_slot st 0) =
    daq_calculate_crc32 (snapshot_payload
      (mk_snapshot (engine_id (engine_slot st 0)) zero_timestamp
         (flight_phase (engine_slot st 0)) (parameters (engine_slot st 0))
         (health_status (engine_slot st 0)) 0))).
Proof. vm_compute. repeat split; reflexivity. Qed.

(** * C2: in the switchover scenario of the unit tests (bus 0 fails on every
    label, bus 1 answers 850 for label 0o310), the cycle returns [EHMS_OK]
    but N1 of engine 0 still has [source_bus] 0 and bus 1 counted no sample:
    the backup read selects rows whose primary bus is 1, and there are none. *)
Theorem switchover_keeps_primary_bus :
  let '(r, st) := daq_execute_cycle switchover_env initialized_state in
  (r = EHMS_OK /\
  source_bus (snap_param (engine_slot st 0) EHMS_PARAM_N1) = 0 /\
  total_samples (source_slot st 1) = 0 /\
  error_samples (source_slot st 0) <> 0).
Proof. vm_compute. repeat split; discriminate || reflexivity. Qed.

(** * C8: starting from an active source with no pending failure, after any
    sequence of [daq_update_statistics] calls the source of bus [b] is
    inactive exactly when the outcomes on [b] contain five consecutive
    failures; and a success on [b] sets its failure count to 0 and leaves
    its [is_active] flag unchanged. *)
Theorem source_inactive_iff_five_consecutive_failures calls b st
    (Hb : b < EHMS_ARINC429_BUS_COUNT)
    (Hlen : length (sources st) = N.to_nat EHMS_ARINC429_BUS_COUNT)
    (Hact : src_is_active (source_slot st b) = true)
    (Hfc : failure_count (source_slot st b) = 0) :
  (src_is_active (source_slot (update_run calls st) b) = false <->
   five_consecutive_failures (bus_outcomes b calls)) /\
  (forall st', length (sources st') = N.to_nat EHMS_ARINC429_BUS_COUNT ->
   failure_count (source_slot (daq_update_statistics b true st') b) = 0 /\
   src_is_active (source_slot (daq_update_statistics b true st') b) =
   src_is_active (source_slot st' b)).
Proof.
  split.
  - exact (update_run_active b calls Hb st 0 Hlen Hact Hfc ltac:(lia)).
  - intros st' Hlen'.
    rewrite update_statistics_same by (rewrite ?Hlen'; unfold EHMS_ARINC429_BUS_COUNT in *; lia).
    split; reflexivity.
Qed.

Lemma source_inactive_iff_five_consecutive_failures_witness :
  let calls := [(0, false); (1, true); (0, false); (0, false); (0, false); (0, false)] in
  0 < EHMS_ARINC429_BUS_COUNT /\
  length (sources initialized_state) = N.to_nat EHMS_ARINC429_BUS_COUNT /\
  src_is_active (source_slot initialized_state 0) = true /\
  failure_count (source_slot initialized_state 0) = 0 /\
  src_is_active (source_slot (update_run calls initialized_state) 0) = false.
Proof.
  cbv zeta. split; [reflexivity|]. split; [reflexivity|]. split; [reflexivity|].
  split; [reflexivity|].
  apply (proj1 (source_inactive_iff_five_consecutive_failures
                  [(0, false); (1, true); (0, false); (0, false); (0, false); (0, false)]
                  0 initialized_state ltac:(reflexivity) ltac:(reflexivity)
                  ltac:(reflexivity) ltac:(reflexivity))).
  exists [], []. reflexivity.
Defined.

End DaqFacts.

Module AlertPropFacts.
Import Alert AlertScenarios AlertProps AlertFacts.

Lemma max_level_snoc l a :
  max_level (l ++ [a]) = N.max (max_level l) (level_val (level a)).
Proof.
  unfold max_level. rewrite fold_right_app. simpl.
  induction l as [|b l IH]; simpl; [lia|]. rewrite IH. lia.
Qed.

Lemma length_active_alerts st :
  length (alerts st) = N.to_nat EHMS_MAX_ACTIVE_ALERTS ->
  active_count st <= EHMS_MAX_ACTIVE_ALERTS ->
  length (active_alerts st) = N.to_nat (active_count st).
Proof.
  intros Hl Hc. unfold active_alerts. rewrite length_take, Hl.
  unfold EHMS_MAX_ACTIVE_ALERTS in *. lia.
Qed.

(** The active set after [create_alert]: the new alert appended. *)
Lemma create_alert_active_eq th s st :
  (N.to_nat (active_count st) < length (alerts st))%nat ->
  active_count st < EHMS_MAX_ACTIVE_ALERTS ->
  active_alerts (create_alert th s st) =
  active_alerts st ++
  [mk_alert (next_alert_id st) (thr_level th) (engine_id s) (thr_param_id th)
     (sample_time s) (clear_time (nth (N.to_nat (active_count st)) (alerts st) zero_alert))
     true (level_val EHMS_ALERT_WARNING <=? level_val (thr_level th))
     (is_inhibited (nth (N.to_nat (active_count st)) (alerts st) zero_alert))
     (snprintf_d 64 (thr_message th) (Z.of_N (engine_id s) + 1)%Z) (thr_ecam_code th)].
Proof.
  intros Hl Hc. unfold active_alerts, create_alert. cbn [alerts active_count].
  rewrite to_nat_u32_inc by exact Hc. rewrite take_S_insert.
  destruct (decide _); [reflexivity | lia].
Qed.

Lemma create_alert_wf th s st :
  In th s_thresholds -> alert_wf st -> active_count st < EHMS_MAX_ACTIVE_ALERTS ->
  alert_wf (create_alert th s st).
Proof.
  intros Hth (Hl & Hc & Hn & Ha & Hw & Hcau & Hh) Hlt.
  assert (Hl' : (N.to_nat (active_count st) < length (alerts st))%nat)
    by (rewrite Hl; unfold EHMS_MAX_ACTIVE_ALERTS in *; lia).
  pose proof (create_alert_active_eq th s st Hl' Hlt) as Heq.
  pose proof (length_active_alerts st Hl Hc) as Hlen.
  set (na := mk_alert _ _ _ _ _ _ _ _ _ _ _) in Heq.
  unfold alert_wf. rewrite Heq.
  split; [rewrite create_alert_length; exact Hl|].
  assert (Hcnt := create_alert_count th s st Hlt).
  split; [rewrite Hcnt; unfold EHMS_MAX_ACTIVE_ALERTS in *; lia|].
  split.
  { rewrite Hcnt. unfold create_alert. cbn [next_alert_id]. rewrite Hn.
    unfold u32_inc, u32_mod. rewrite N.mod_small; [reflexivity|].
    unfold EHMS_MAX_ACTIVE_ALERTS in *. lia. }
  split.
  { intros i a Hi. apply lookup_snoc_Some in Hi as [[Hi Hi'] | [Hi <-]].
    - exact (Ha i a Hi').
    - subst na. cbn. split; [rewrite Hi, Hlen, Hn; lia|].
      split; [reflexivity|]. split; [reflexivity|].
      exists th. repeat split; auto. }
  unfold create_alert; cbn [master_warning master_caution highest_level].
  split.
  { destruct (level_val EHMS_ALERT_WARNING <=? level_val (thr_level th)) eqn:Hlv.
    - intros _. exists na. split; [apply in_or_app; right; left; reflexivity|].
      subst na; cbn. apply N.leb_le. exact Hlv.
    - intros Hmw. destruct (Hw Hmw) as (a & Hin & Ha'). exists a.
      split; [apply in_or_app; left; exact Hin | exact Ha']. }
  split.
  { destruct (level_val EHMS_ALERT_WARNING <=? level_val (thr_level th)) eqn:Hlv.
    - intros Hmc. destruct (Hcau Hmc) as (a & Hin & Ha'). exists a.
      split; [apply in_or_app; left; exact Hin | exact Ha'].
    - destruct (level_val EHMS_ALERT_CAUTION <=? level_val (thr_level th)) eqn:Hlc.
      + intros _. exists na. split; [apply in_or_app; right; left; reflexivity|].
        subst na; cbn [level]. apply N.leb_le in Hlc. apply N.leb_gt in Hlv. lia.
      + intros Hmc. destruct (Hcau Hmc) as (a & Hin & Ha'). exists a.
        split; [apply in_or_app; left; exact Hin | exact Ha']. }
  rewrite max_level_snoc, <- Hh. subst na; cbn [level].
  destruct (level_val (highest_level st) <? level_val (thr_level th)) eqn:Hlt'.
  - apply N.ltb_lt in Hlt'. lia.
  - apply N.ltb_ge in Hlt'. lia.
Qed.

Lemma process_rows_wf s ths st :
  (forall th, In th ths -> In th s_thresholds) ->
  alert_wf st -> alert_wf (fold_left (process_threshold s) ths st).
Proof.
  revert st. induction ths as [|th ths IH]; intros st Hsub Hwf; simpl; [exact Hwf|].
  apply IH; [intros t Ht; apply Hsub; right; exact Ht|].
  destruct (process_threshold_cases s st th) as [-> | (_ & _ & _ & Hlt & ->)]; [exact Hwf|].
  apply create_alert_wf; [apply Hsub; left; reflexivity | exact Hwf | exact Hlt].
Qed.

Lemma ack_wf st mc mw :
  alert_wf st -> (mc = true -> master_caution st = true) ->
  (mw = true -> master_warning st = true) ->
  alert_wf (mk_alert_state (alerts st) (active_count st) (next_alert_id st) mc mw
              (highest_level st)).
Proof.
  intros (Hl & Hc & Hn & Ha & Hw & Hcau & Hh) Hmc Hmw.
  unfold alert_wf, active_alerts in *; cbn [alerts active_count next_alert_id
    master_caution master_warning highest_level].
  repeat (split; [assumption|]).
  split; [intros H; exact (Hw (Hmw H))|].
  split; [intros H; exact (Hcau (Hmc H))|]. exact Hh.
Qed.

Lemma alert_reachable_wf st : alert_reachable st -> alert_wf st.
Proof.
  induction 1 as [|s st _ IH|l st _ IH].
  - repeat split; try (intros; discriminate).
  - destruct s as [s|]; cbn [alert_process_snapshot snd]; [|exact IH].
    apply process_rows_wf; [intros th Hth; exact Hth | exact IH].
  - unfold alert_acknowledge. cbn [snd].
    destruct (_ <=? _); [|destruct (_ <=? _)]; try exact IH;
      apply ack_wf; try exact IH; intros H; try discriminate H; exact H.
Qed.

Lemma exceeded_not_nan th q :
  exceeded th q = true -> f32_is_nan (eng_value q) = false.
Proof.
  unfold exceeded, f32_ge, f32_le, f32_cmp, f32_key.
  destruct (f32_is_nan (eng_value q)); [|reflexivity].
  destruct (high_limit th); intros H; discriminate H.
Qed.

Lemma process_rows_fixed_in s ths st :
  (forall th, In th ths -> process_threshold s st th = st) ->
  fold_left (process_threshold s) ths st = st.
Proof.
  induction ths as [|th ths IH]; intros H; simpl; [reflexivity|].
  rewrite (H th (or_introl eq_refl)). apply IH. intros t Ht. apply H. right. exact Ht.
Qed.

(** Alert identifiers: in every state reachable from [alert_init], at most
    [EHMS_MAX_ACTIVE_ALERTS] alerts are active, the alert in slot [i] has
    [alert_id = i + 1], and [next_alert_id] is one past the last one. *)
Theorem alert_ids_sequential st :
  alert_reachable st ->
  active_count st <= EHMS_MAX_ACTIVE_ALERTS /\
  next_alert_id st = active_count st + 1 /\
  (forall i a, active_alerts st !! i = Some a -> alert_id a = N.of_nat i + 1).
Proof.
  intros Hr. destruct (alert_reachable_wf st Hr) as (_ & Hc & Hn & Ha & _).
  split; [exact Hc|]. split; [exact Hn|]. intros i a Hi. exact (proj1 (Ha i a Hi)).
Qed.

Lemma alert_ids_sequential_witness :
  alert_reachable full_state /\ active_count full_state <= EHMS_MAX_ACTIVE_ALERTS.
Proof.
  assert (alert_reachable full_state) as Hr by (apply alert_run_reachable; constructor).
  split; [exact Hr|]. exact (proj1 (alert_ids_sequential full_state Hr)).
Defined.



(** In a reachable state, a set master-warning flag is backed by an active
    alert of level [WARNING] or above, and a set master-caution flag by an
    active alert of level [CAUTION]. *)
Theorem master_flags_backed_by_alerts st :
  alert_reachable st ->
  (master_warning st = true ->
     exists a, In a (active_alerts st) /\
       level_val EHMS_ALERT_WARNING <= level_val (level a)) /\
  (master_caution st = true ->
     exists a, In a (active_alerts st) /\
       level_val EHMS_ALERT_CAUTION <= level_val (level a) < level_val EHMS_ALERT_WARNING).
Proof.
  intros Hr. destruct (alert_reachable_wf st Hr) as (_ & _ & _ & _ & Hw & Hc & _).
  split; assumption.
Qed.

Lemma master_flags_backed_by_alerts_witness :
  alert_reachable egt_caution_state /\ master_caution egt_caution_state = true /\
  exists a, In a (active_alerts egt_caution_state) /\
    level_val EHMS_ALERT_CAUTION <= level_val (level a) < level_val EHMS_ALERT_WARNING.
Proof.
  assert (alert_reachable egt_caution_state) as Hr by (apply alert_run_reachable; constructor).
  assert (Hm : master_caution egt_caution_state = true) by (vm_compute; reflexivity).
  split; [exact Hr|]. split; [exact Hm|].
  exact (proj2 (master_flags_backed_by_alerts _ Hr) Hm).
Defined.

(** In a reachable state, [highest_level] is the highest level among the
    active alerts ([EHMS_ALERT_NONE] when there is none). *)
Theorem highest_level_is_max_active st :
  alert_reachable st ->
  level_val (alert_get_highest_level st) = max_level (active_alerts st).
Proof.
  intros Hr. destruct (alert_reachable_wf st Hr) as (_ & _ & _ & _ & _ & _ & Hh). exact Hh.
Qed.

Lemma highest_level_is_max_active_witness :
  alert_reachable full_state /\
  level_val (alert_get_highest_level full_state) = max_level (active_alerts full_state).
Proof.
  assert (alert_reachable full_state) as Hr by (apply alert_run_reachable; constructor).
  split; [exact Hr|]. exact (highest_level_is_max_active _ Hr).
Defined.

(** Processing the same snapshot a second time changes nothing: every
    exceedance it shows is already in the active set, or the set is full. *)
Theorem process_snapshot_idempotent st s :
  alert_reachable st ->
  alert_process_snapshot (Some s) (snd (alert_process_snapshot (Some s) st)) =
  alert_process_snapshot (Some s) st.
Proof.
  intros Hr. cbn [alert_process_snapshot snd]. f_equal.
  apply process_rows_fixed_in. intros th Hin.
  set (st1 := fold_left (process_threshold s) s_thresholds st).
  destruct (process_threshold_cases s st1 th) as [H | (Hv & He & Hx & Hlt & _)]; [exact H|].
  exfalso.
  destruct (rows_raise_or_full s s_thresholds th st (alert_reachable_length st Hr) Hin Hv He)
    as [(a & Ha & Hk) | Hfull].
  - apply existsb_false_key in Hx. apply Hx. apply list_elem_of_In, in_map_iff.
    exists a. split; [exact Hk | exact Ha].
  - fold st1 in Hfull. lia.
Qed.

Lemma process_snapshot_idempotent_witness :
  alert_reachable egt_caution_state /\
  alert_process_snapshot (Some (snap_egt 1 950))
    (snd (alert_process_snapshot (Some (snap_egt 1 950)) egt_caution_state)) =
  alert_process_snapshot (Some (snap_egt 1 950)) egt_caution_state.
Proof.
  assert (alert_reachable egt_caution_state) as Hr by (apply alert_run_reachable; constructor).
  split; [exact Hr|]. exact (process_snapshot_idempotent _ _ Hr).
Defined.

(** A parameter whose engineering value is NaN never raises an alert: the
    alerts a call adds all have a non-NaN value in the snapshot. *)
Theorem nan_value_never_alerts st s :
  exists new,
    active_alerts (snd (alert_process_snapshot (Some s) st)) = active_alerts st ++ new /\
    Forall (fun a => f32_is_nan (eng_value (snap_param s (a_param_id a))) = false) new.
Proof.
  cbn [alert_process_snapshot snd].
  destruct (process_rows_appends s s_thresholds st) as (new & Heq & Hall).
  exists new. split; [exact Heq|].
  eapply Forall_impl; [exact Hall|]. intros a (th & _ & Hk & _ & He).
  unfold alert_key, row_key in Hk. injection Hk as _ Hp _. rewrite Hp.
  exact (exceeded_not_nan _ _ He).
Qed.

End AlertPropFacts.

Module DaqPropFacts.
Import Daq DaqScenarios DaqSpec DaqProps DaqFacts.

Lemma N_to_nat_neq a b : a <> b -> N.to_nat a <> N.to_nat b.
Proof. lia. Qed.

Lemma write_param_sources st eng p q : sources (write_param st eng p q) = sources st.
Proof. reflexivity. Qed.

Lemma write_param_time st eng p q :
  current_time_ms (write_param st eng p q) = current_time_ms st.
Proof. reflexivity. Qed.

Lemma write_param_other st eng p q e :
  e <> eng -> engine_slot (write_param st eng p q) e = engine_slot st e.
Proof.
  intros Hne. unfold write_param, engine_slot. cbn [engine_data set_engine_data].
  apply AlertFacts.nth_insert_other. lia.
Qed.

(** [write_param] keeps every field of every slot but the parameters. *)
Lemma write_param_slot st eng p q e :
  engine_slot (write_param st eng p q) e = engine_slot st e \/
  (e = eng /\ engine_slot (write_param st eng p q) e =
   set_parameters (engine_slot st eng) (<[N.to_nat p := q]> (parameters (engine_slot st eng)))).
Proof.
  destruct (decide (e = eng)) as [->|Hne]; [|left; apply write_param_other; exact Hne].
  assert (H : engine_slot (write_param st eng p q) eng =
    if decide (N.to_nat eng < length (engine_data st))%nat then
      set_parameters (engine_slot st eng) (<[N.to_nat p := q]> (parameters (engine_slot st eng)))
    else engine_slot st eng)
    by (unfold write_param, engine_slot at 1; cbn [engine_data set_engine_data];
        apply AlertFacts.nth_insert_same).
  rewrite H. destruct (decide _); [right; split; reflexivity|left; reflexivity].
Qed.

Lemma write_param_length st eng p q :
  length (engine_data (write_param st eng p q)) = length (engine_data st).
Proof. apply length_insert. Qed.

Lemma update_statistics_engine_data b ok st :
  engine_data (daq_update_statistics b ok st) = engine_data st.
Proof. unfold daq_update_statistics. destruct (_ <? _); reflexivity. Qed.

Lemma update_statistics_time b ok st :
  current_time_ms (daq_update_statistics b ok st) = current_time_ms st.
Proof. unfold daq_update_statistics. destruct (_ <? _); reflexivity. Qed.

(** What the read loop of one bus preserves. *)
Lemma read_arinc_invariant env bus eng (P : daq_module_state_t -> Prop) ps r st :
  P st ->
  (forall st p q, P st -> P (write_param st eng p q)) ->
  (forall st ok, P st -> P (daq_update_statistics bus ok st)) ->
  P (snd (fold_left (read_arinc_param env bus eng) ps (r, st))).
Proof.
  intros H0 Hw Hu. revert r st H0. induction ps as [|p ps IH]; intros r st H0;
    cbn [fold_left]; [exact H0|].
  unfold read_arinc_param at 2.
  destruct (bus_primary (param_config p) =? bus); [|apply IH; exact H0].
  destruct (arinc429_read env bus (arinc_label (param_config p))) as [r' d].
  case_decide; apply IH; auto.
Qed.

Lemma read_1553_invariant env eng (P : daq_module_state_t -> Prop) st :
  P st -> (forall st p q, P st -> P (write_param st eng p q)) ->
  P (snd (daq_read_1553_data env eng st)).
Proof.
  intros H0 Hw. unfold daq_read_1553_data.
  destruct (milstd1553_read_subaddress env 5) as [r d].
  case_decide; simpl; auto.
Qed.


Lemma acquire_engine_shape env st eng :
  exists st2,
    (forall P : daq_module_state_t -> Prop, P st ->
       (forall st p q, P st -> P (write_param st eng p q)) ->
       (forall st ok, P st -> P (daq_update_statistics 0 ok st)) -> P st2) /\
    acquire_engine env st eng =
    set_engine_data st2 (<[N.to_nat eng := acquired_slot env st2 eng]> (engine_data st2)).
Proof.
  unfold acquire_engine.
  destruct (daq_read_arinc429_data env (bus_primary (param_config 0)) eng st)
    as [r1 st1] eqn:E1.
  assert (H1 : forall P : daq_module_state_t -> Prop, P st ->
       (forall st p q, P st -> P (write_param st eng p q)) ->
       (forall st ok, P st -> P (daq_update_statistics 0 ok st)) -> P st1).
  { intros P H0 Hw Hu. change st1 with (snd (r1, st1)). rewrite <- E1.
    unfold daq_read_arinc429_data. apply read_arinc_invariant; [exact H0 | exact Hw |].
    intros st' ok Hp. exact (Hu st' ok Hp). }
  rewrite backup_read_is_noop.
  destruct (if bool_decide (r1 = EHMS_OK) then (r1, st1) else (EHMS_OK, st1))
    as [r2 st2] eqn:E2.
  assert (Hst2 : st2 = st1)
    by (destruct (bool_decide (r1 = EHMS_OK)); injection E2; intros; congruence).
  subst st2.
  destruct (if bool_decide (r2 = EHMS_OK) then daq_read_1553_data env eng st1 else (r2, st1))
    as [r3 st3] eqn:E3.
  exists st3. split; [|reflexivity].
  intros P H0 Hw Hu. specialize (H1 P H0 Hw Hu).
  destruct (bool_decide (r2 = EHMS_OK)).
  - change st3 with (snd (r3, st3)). rewrite <- E3. apply read_1553_invariant; auto.
  - injection E3 as _ <-. exact H1.
Qed.

Lemma fold_left_invariant {A B} (f : A -> B -> A) (P : A -> Prop) l a :
  P a -> (forall a b, In b l -> P a -> P (f a b)) -> P (fold_left f l a).
Proof.
  revert a. induction l as [|b l IH]; intros a H0 Hs; simpl; [exact H0|].
  apply IH; [apply Hs; [left; reflexivity | exact H0]|].
  intros a' b' Hin. apply Hs. right. exact Hin.
Qed.

Lemma acquire_engine_other env st eng e :
  e <> eng -> engine_slot (acquire_engine env st eng) e = engine_slot st e.
Proof.
  intros Hne. destruct (acquire_engine_shape env st eng) as (st2 & HP & ->).
  unfold engine_slot at 1. cbn [engine_data set_engine_data].
  rewrite AlertFacts.nth_insert_other by lia.
  apply (HP (fun s => engine_slot s e = engine_slot st e)); [reflexivity| |].
  - intros s p q Hs. rewrite write_param_other by exact Hne. exact Hs.
  - intros s ok Hs. unfold engine_slot in *. rewrite update_statistics_engine_data. exact Hs.
Qed.

Lemma acquire_engine_sources env st eng b :
  b <> 0 -> source_slot (acquire_engine env st eng) b = source_slot st b.
Proof.
  intros Hb. destruct (acquire_engine_shape env st eng) as (st2 & HP & ->).
  apply (HP (fun s => source_slot s b = source_slot st b)); [reflexivity| |].
  - intros s p q Hs. exact Hs.
  - intros s ok Hs. rewrite update_statistics_other by congruence. exact Hs.
Qed.

Lemma acquire_engine_fixed_fields env st eng e :
  fixed_fields (engine_slot (acquire_engine env st eng) e) = fixed_fields (engine_slot st e).
Proof.
  destruct (decide (e = eng)) as [->|Hne]; [|rewrite acquire_engine_other by exact Hne; reflexivity].
  destruct (acquire_engine_shape env st eng) as (st2 & HP & ->).
  assert (H2 : fixed_fields (engine_slot st2 eng) = fixed_fields (engine_slot st eng)).
  { apply (HP (fun s => fixed_fields (engine_slot s eng) = fixed_fields (engine_slot st eng)));
      [reflexivity| |].
    - intros s p q Hs. destruct (write_param_slot s eng p q eng) as [-> | [_ ->]]; exact Hs.
    - intros s ok Hs. unfold engine_slot in *. rewrite update_statistics_engine_data. exact Hs. }
  unfold engine_slot at 1. cbn [engine_data set_engine_data].
  rewrite AlertFacts.nth_insert_same. destruct (decide _); [|exact H2].
  rewrite <- H2. reflexivity.
Qed.

Lemma acquire_engine_length env st eng :
  length (engine_data (acquire_engine env st eng)) = length (engine_data st).
Proof.
  destruct (acquire_engine_shape env st eng) as (st2 & HP & ->).
  cbn [engine_data set_engine_data]. rewrite length_insert.
  apply (HP (fun s => length (engine_data s) = length (engine_data st))); [reflexivity| |].
  - intros s p q Hs. rewrite write_param_length. exact Hs.
  - intros s ok Hs. rewrite update_statistics_engine_data. exact Hs.
Qed.

(** The slot an engine's acquisition leaves: stamped with the cycle's time,
    its CRC computed over the payload still holding the previous time. *)
Lemma acquire_engine_same env st eng :
  (N.to_nat eng < length (engine_data st))%nat ->
  let s' := engine_slot (acquire_engine env st eng) eng in
  sample_time s' = system_get_timestamp env /\
  crc32 s' = daq_calculate_crc32 (snapshot_payload
    (mk_snapshot (engine_id s') (sample_time (engine_slot st eng)) (flight_phase s')
       (parameters s') (health_status s') (crc32 s'))).
Proof.
  intros Hlt. destruct (acquire_engine_shape env st eng) as (st2 & HP & ->).
  assert (H2 : sample_time (engine_slot st2 eng) = sample_time (engine_slot st eng) /\
               length (engine_data st2) = length (engine_data st)).
  { apply (HP (fun s => sample_time (engine_slot s eng) = sample_time (engine_slot st eng) /\
                        length (engine_data s) = length (engine_data st))); [split; reflexivity| |].
    - intros s p q [Hs Hl]. rewrite write_param_length.
      destruct (write_param_slot s eng p q eng) as [-> | [_ ->]]; split; assumption.
    - intros s ok Hs. unfold engine_slot in *. rewrite update_statistics_engine_data. exact Hs. }
  destruct H2 as [Hts Hl].
  assert (Hs : engine_slot (set_engine_data st2 (<[N.to_nat eng := acquired_slot env st2 eng]>
                 (engine_data st2))) eng = acquired_slot env st2 eng).
  { unfold engine_slot at 1. cbn [engine_data set_engine_data].
    rewrite AlertFacts.nth_insert_same. destruct (decide _); [reflexivity | lia]. }
  cbv zeta. rewrite Hs. unfold acquired_slot, set_parameters.
  cbn [engine_id sample_time flight_phase parameters health_status crc32].
  rewrite Hts. split; reflexivity.
Qed.

Lemma fold_acquire_other env engines st e :
  (forall x, In x engines -> x <> e) ->
  engine_slot (fold_left (acquire_engine env) engines st) e = engine_slot st e /\
  length (engine_data (fold_left (acquire_engine env) engines st)) = length (engine_data st).
Proof.
  intros Hx.
  apply (fold_left_invariant _ (fun s => engine_slot s e = engine_slot st e /\
                                         length (engine_data s) = length (engine_data st)));
    [split; reflexivity|].
  intros s x Hin [Hs Hl]. rewrite acquire_engine_other by (apply not_eq_sym, Hx, Hin).
  rewrite acquire_engine_length. split; assumption.
Qed.

Lemma execute_cycle_unfold env st :
  is_initialized st = true ->
  daq_execute_cycle env st =
  (EHMS_OK, fold_left (acquire_engine env)
     (map N.of_nat (seq 0 (N.to_nat (config_get_engine_count env))))
     (mk_daq_state (is_initialized st) (sys_state st) (u32_inc (cycle_count st))
        (system_get_time_ms env) (sources st) (engine_data st) (last_error st))).
Proof. intros H. unfold daq_execute_cycle. rewrite H. reflexivity. Qed.

(** Acquisition cycle and snapshot CRC: after [daq_execute_cycle], the slot
    of every acquired engine carries the cycle's timestamp, and its [crc32]
    is the CRC of the payload with the [sample_time] the slot had before the
    cycle. *)
Theorem cycle_crc_covers_previous_sample_time env st e :
  is_initialized st = true ->
  length (engine_data st) = N.to_nat EHMS_MAX_ENGINES ->
  config_get_engine_count env <= EHMS_MAX_ENGINES ->
  e < config_get_engine_count env ->
  let s' := engine_slot (snd (daq_execute_cycle env st)) e in
  sample_time s' = system_get_timestamp env /\
  crc32 s' = daq_calculate_crc32 (snapshot_payload
    (mk_snapshot (engine_id s') (sample_time (engine_slot st e)) (flight_phase s')
       (parameters s') (health_status s') (crc32 s'))).
Proof.
  intros Hi Hl Hn He. rewrite execute_cycle_unfold by exact Hi. cbn [snd].
  set (st0 := mk_daq_state _ _ _ _ _ _ _).
  set (n := N.to_nat (config_get_engine_count env)).
  replace (seq 0 n) with (seq 0 (N.to_nat e) ++ [N.to_nat e] ++ seq (S (N.to_nat e)) (n - S (N.to_nat e)))
    by (transitivity (seq 0 (N.to_nat e + S (n - S (N.to_nat e))));
        [rewrite seq_app; reflexivity | f_equal; subst n; lia]).
  rewrite !map_app, !fold_left_app.
  destruct (fold_acquire_other env (map N.of_nat (seq 0 (N.to_nat e))) st0 e) as [H1 L1].
  { intros x Hx. apply in_map_iff in Hx as (k & <- & Hk). apply in_seq in Hk. lia. }
  set (st1 := fold_left (acquire_engine env) (map N.of_nat (seq 0 (N.to_nat e))) st0) in *.
  cbn [map fold_left]. rewrite N2Nat.id.
  set (st2 := acquire_engine env st1 e).
  destruct (fold_acquire_other env (map N.of_nat (seq (S (N.to_nat e)) (n - S (N.to_nat e)))) st2 e)
    as [H3 _].
  { intros x Hx. apply in_map_iff in Hx as (k & <- & Hk). apply in_seq in Hk. lia. }
  cbv zeta. rewrite H3.
  assert (Hlt : (N.to_nat e < length (engine_data st1))%nat)
    by (rewrite L1; subst st0; cbn [engine_data]; rewrite Hl; unfold EHMS_MAX_ENGINES in *; lia).
  destruct (acquire_engine_same env st1 e Hlt) as [Ht Hc].
  rewrite H1 in Hc. subst st0. unfold engine_slot at 2 in Hc. cbn [engine_data] in Hc.
  split; [exact Ht | exact Hc].
Qed.

(** Bus statistics: a cycle changes the statistics of bus 0 only; the
    backup bus 1 and the buses 2 and 3 keep theirs. *)
Theorem execute_cycle_keeps_other_buses env st b :
  b <> 0 -> source_slot (snd (daq_execute_cycle env st)) b = source_slot st b.
Proof.
  intros Hb. destruct (is_initialized st) eqn:Hi; [|unfold daq_execute_cycle; rewrite Hi; reflexivity].
  rewrite execute_cycle_unfold by exact Hi. cbn [snd].
  apply (fold_left_invariant _ (fun s => source_slot s b = source_slot st b)); [reflexivity|].
  intros s x _ Hs. rewrite acquire_engine_sources by exact Hb. exact Hs.
Qed.

Lemma daq_init_valid ienv cfg st0 :
  sample_rate_hz cfg <= 100 -> cfg_engine_count cfg <= EHMS_MAX_ENGINES ->
  (fst (daq_init ienv (Some cfg) st0) = EHMS_OK /\ snd (daq_init ienv (Some cfg) st0) = daq_init_state) \/
  (fst (daq_init ienv (Some cfg) st0) <> EHMS_OK /\ snd (daq_init ienv (Some cfg) st0) = daq_cleared_state).
Proof.
  intros Hr He. unfold daq_init.
  replace ((100 <? sample_rate_hz cfg) || (EHMS_MAX_ENGINES <? cfg_engine_count cfg)) with false
    by (symmetry; apply orb_false_iff; split; apply N.ltb_ge; assumption).
  destruct (daq_init_sources zero_daq_state) as [r0 stc] eqn:Ei.
  assert (r0 = EHMS_OK /\ stc = daq_cleared_state) as [-> ->]
    by (unfold daq_cleared_state; rewrite Ei; split; [injection Ei; auto | reflexivity]).
  set (r := fold_left _ _ EHMS_OK).
  set (r' := if bool_decide (r = EHMS_OK) then milstd1553_init ienv else r).
  destruct (decide (r' = EHMS_OK)) as [Hok|Hko].
  - left. rewrite (bool_decide_eq_true_2 _ Hok). split; [exact Hok | reflexivity].
  - right. rewrite (bool_decide_eq_false_2 _ Hko). split; [exact Hko | reflexivity].
Qed.

Lemma daq_init_ok ienv config st0 :
  fst (daq_init ienv config st0) = EHMS_OK -> snd (daq_init ienv config st0) = daq_init_state.
Proof.
  destruct config as [cfg|]; [|discriminate].
  destruct (decide (sample_rate_hz cfg <= 100 /\ cfg_engine_count cfg <= EHMS_MAX_ENGINES))
    as [[Hr He]|Hbad].
  - destruct (daq_init_valid ienv cfg st0 Hr He) as [[_ H] | [H _]]; [intros _; exact H|].
    intros Hok. contradiction.
  - unfold daq_init.
    replace ((100 <? sample_rate_hz cfg) || (EHMS_MAX_ENGINES <? cfg_engine_count cfg)) with true
      by (symmetry; apply orb_true_iff; destruct (decide (sample_rate_hz cfg <= 100));
          [right; apply N.ltb_lt; lia | left; apply N.ltb_lt; lia]).
    discriminate.
Qed.

Lemma cleared_engine_slot e : engine_slot daq_cleared_state e = zero_snapshot.
Proof. apply nth_repeat. Qed.

Lemma zero_snapshot_param p : snap_param zero_snapshot p = zero_parameter.
Proof. apply nth_repeat. Qed.

Lemma zero_snapshot_crc_mismatch :
  (daq_calculate_crc32 (snapshot_payload zero_snapshot) =? crc32 zero_snapshot) = false.
Proof. vm_compute. reflexivity. Qed.

(** Successful initialisation: every source is active with zero counters,
    buses 0 and 1 primary; every parameter reads back as an all-zero
    [EHMS_PARAM_VALID] sample, and every engine snapshot fails its CRC check
    until it is acquired. *)
Theorem daq_init_success_state ienv config st0 :
  fst (daq_init ienv config st0) = EHMS_OK ->
  let st := snd (daq_init ienv config st0) in
  is_initialized st = true /\
  (forall b, b < EHMS_ARINC429_BUS_COUNT ->
     source_slot st b = mk_source true (b <? 2) b 0 0 0 0) /\
  (forall e p, e < EHMS_MAX_ENGINES -> p < EHMS_PARAM_COUNT ->
     daq_get_parameter e p st = (EHMS_OK, Some zero_parameter) /\
     status zero_parameter = EHMS_PARAM_VALID /\
     daq_get_engine_snapshot e st = (EHMS_ERROR_CRC, None)).
Proof.
  intros Hok. cbv zeta. rewrite (daq_init_ok _ _ _ Hok).
  split; [reflexivity|]. split.
  - intros b Hb. unfold EHMS_ARINC429_BUS_COUNT in Hb.
    assert (b = 0 \/ b = 1 \/ b = 2 \/ b = 3) as [-> | [-> | [-> | ->]]] by lia; reflexivity.
  - intros e p He Hp. split; [|split; [reflexivity|]].
    + unfold daq_get_parameter.
      replace ((EHMS_MAX_ENGINES <=? e) || (EHMS_PARAM_COUNT <=? p)) with false
        by (symmetry; apply orb_false_iff; split; apply N.leb_gt; assumption).
      cbn [is_initialized daq_init_state negb].
      change (engine_slot daq_init_state e) with (engine_slot daq_cleared_state e).
      rewrite cleared_engine_slot, zero_snapshot_param. reflexivity.
    + unfold daq_get_engine_snapshot.
      replace (EHMS_MAX_ENGINES <=? e) with false by (symmetry; apply N.leb_gt; exact He).
      cbn [is_initialized daq_init_state negb].
      change (engine_slot daq_init_state e) with (engine_slot daq_cleared_state e).
      rewrite cleared_engine_slot, zero_snapshot_crc_mismatch. reflexivity.
Qed.

(** Failed initialisation: when the configuration is valid but a driver
    initialisation fails, [daq_init] has already cleared the module, which
    is left uninitialised (whatever state it was in before) and refuses
    acquisition cycles. *)
Theorem daq_init_failure_deinitializes ienv cfg st0 :
  sample_rate_hz cfg <= 100 -> cfg_engine_count cfg <= EHMS_MAX_ENGINES ->
  fst (daq_init ienv (Some cfg) st0) <> EHMS_OK ->
  let st := snd (daq_init ienv (Some cfg) st0) in
  is_initialized st = false /\
  (forall e, engine_slot st e = zero_snapshot) /\
  (forall env, daq_execute_cycle env st = (EHMS_ERROR_NOT_INIT, st)).
Proof.
  intros Hr He Hko. cbv zeta.
  destruct (daq_init_valid ienv cfg st0 Hr He) as [[H _] | [_ ->]]; [contradiction|].
  split; [reflexivity|]. split; [exact cleared_engine_slot|].
  intros env. reflexivity.
Qed.

Lemma validate_staleness_cases env st q :
  let q' := daq_check_staleness env st (daq_validate_parameter env q) in
  q' = q \/ q' = set_status q EHMS_PARAM_FAILED \/
  (status q = EHMS_PARAM_VALID /\ q' = set_status q EHMS_PARAM_STALE).
Proof.
  cbv zeta. unfold daq_validate_parameter.
  destruct (param_db_get_limits env (param_id q)) as [r [mn mx]].
  assert (Hs : forall q0, daq_check_staleness env st q0 = q0 \/
             (status q0 = EHMS_PARAM_VALID /\
              daq_check_staleness env st q0 = set_status q0 EHMS_PARAM_STALE)).
  { intros q0. unfold daq_check_staleness.
    destruct (DAQ_STALE_TIMEOUT_MS <? _); [|left; reflexivity].
    destruct (status q0) eqn:E; simpl; [right; split; reflexivity | left; reflexivity ..]. }
  destruct (bool_decide (r = EHMS_OK)); [destruct (f32_lt _ mn || f32_gt _ mx)|].
  - right; left. unfold daq_check_staleness. destruct (DAQ_STALE_TIMEOUT_MS <? _); reflexivity.
  - destruct (Hs q) as [H | [H1 H2]]; [left; exact H | right; right; split; assumption].
  - destruct (Hs q) as [H | [H1 H2]]; [left; exact H | right; right; split; assumption].
Qed.

(** Validation followed by the staleness check, as applied to every
    parameter by an acquisition cycle, only ever downgrades the status of a
    parameter: the result is the parameter itself, the parameter marked
    [EHMS_PARAM_FAILED], or, for a valid parameter only, the parameter
    marked [EHMS_PARAM_STALE]; no other field changes. *)
Theorem validate_staleness_only_downgrades env st q :
  let q' := daq_check_staleness env st (daq_validate_parameter env q) in
  q' = q \/ q' = set_status q EHMS_PARAM_FAILED \/
  (status q = EHMS_PARAM_VALID /\ q' = set_status q EHMS_PARAM_STALE).
Proof. exact (validate_staleness_cases env st q). Qed.

(** A parameter whose engineering value is a NaN passes validation
    unchanged, whatever limits the parameter database gives: both range
    comparisons are false on a NaN. *)
Theorem nan_passes_validation env q :
  f32_is_nan (eng_value q) = true -> daq_validate_parameter env q = q.
Proof.
  intros Hnan. unfold daq_validate_parameter.
  destruct (param_db_get_limits env (param_id q)) as [r [mn mx]].
  destruct (bool_decide (r = EHMS_OK)); [|reflexivity].
  unfold f32_lt, f32_gt, f32_cmp, f32_key. rewrite Hnan. reflexivity.
Qed.

(** The staleness window of [daq_check_staleness], computed with unsigned
    32-bit subtraction: with the clock [now] and the parameter's time [t]
    both 32-bit values, a valid parameter stays valid exactly when it is at
    most 100 ms old, or when [t] lies at least [2^32 - 100] ms ahead of
    [now] (the subtraction wraps); in every other case, including a
    timestamp less far in the future, it is marked stale. *)
Theorem staleness_window env st q :
  status q = EHMS_PARAM_VALID ->
  current_time_ms st < u32_mod -> timestamp_to_ms env (timestamp q) < u32_mod ->
  let now := current_time_ms st in
  let t := timestamp_to_ms env (timestamp q) in
  (status (daq_check_staleness env st q) = EHMS_PARAM_VALID <->
   (t <= now /\ now <= t + DAQ_STALE_TIMEOUT_MS) \/ now + u32_mod - DAQ_STALE_TIMEOUT_MS <= t).
Proof.
  intros Hv Hn Ht. cbv zeta. unfold daq_check_staleness, u32_sub.
  set (now := current_time_ms st) in *. set (t := timestamp_to_ms env (timestamp q)) in *.
  rewrite (N.mod_small t u32_mod Ht).
  assert (Hage : (now + u32_mod - t) mod u32_mod = if t <=? now then now - t else now + u32_mod - t).
  { destruct (N.leb_spec t now).
    - replace (now + u32_mod - t) with ((now - t) + 1 * u32_mod) by lia.
      rewrite N.Div0.mod_add. apply N.mod_small. lia.
    - apply N.mod_small. lia. }
  rewrite Hage. rewrite Hv.
  unfold DAQ_STALE_TIMEOUT_MS, u32_mod in *.
  destruct (N.leb_spec t now);
    [destruct (N.ltb_spec 100 (now - t)) | destruct (N.ltb_spec 100 (now + 4294967296 - t))];
    simpl; split; intros Hx; try discriminate; try exact Hv; try (exfalso; lia); lia.
Qed.

(** The counters of a source after a run of [daq_update_statistics] calls
    (on any buses): the total of bus [b] grows by the number of calls on
    [b] and its error count by the number of failed ones, both modulo
    [2^32]. *)
Theorem update_run_counters calls st b :
  b < EHMS_ARINC429_BUS_COUNT -> (N.to_nat b < length (sources st))%nat ->
  total_samples (source_slot st b) < u32_mod -> error_samples (source_slot st b) < u32_mod ->
  total_samples (source_slot (update_run calls st) b) =
    (total_samples (source_slot st b) + N.of_nat (length (bus_outcomes b calls))) mod u32_mod /\
  error_samples (source_slot (update_run calls st) b) =
    (error_samples (source_slot st b)
     + N.of_nat (length (List.filter negb (bus_outcomes b calls)))) mod u32_mod.
Proof.
  revert st. induction calls as [|[b' ok] calls IH]; intros st Hb Hlen Ht He.
  - simpl. rewrite !N.add_0_r, !N.mod_small by assumption. split; reflexivity.
  - rewrite update_run_cons, bus_outcomes_cons. cbn [fst snd].
    assert (Hlen' : (N.to_nat b < length (sources (daq_update_statistics b' ok st)))%nat)
      by (rewrite update_statistics_length; exact Hlen).
    destruct (decide (b' = b)) as [->|Hne].
    + pose proof (update_statistics_same b ok st Hb Hlen) as Hs. cbv zeta in Hs.
      assert (Hm : forall x, u32_inc x < u32_mod)
        by (intros x; unfold u32_inc; apply N.mod_lt; discriminate).
      destruct (IH (daq_update_statistics b ok st) Hb Hlen') as [IH1 IH2];
        [rewrite Hs; destruct ok; apply Hm || assumption ..|].
      rewrite IH1, IH2, Hs. unfold u32_inc.
      destruct ok; cbn [negb List.filter length]; simpl;
        rewrite ?N.Div0.add_mod_idemp_l; split; f_equal; lia.
    + destruct (IH (daq_update_statistics b' ok st) Hb Hlen') as [IH1 IH2];
        try (rewrite (update_statistics_other b' b ok st Hne); assumption).
      rewrite IH1, IH2, !(update_statistics_other b' b ok st Hne). split; reflexivity.
Qed.

Lemma write_param_param_other st eng p q e p' :
  p' <> p -> snap_param (engine_slot (write_param st eng p q) e) p' = snap_param (engine_slot st e) p'.
Proof.
  intros Hne. destruct (write_param_slot st eng p q e) as [-> | [-> ->]]; [reflexivity|].
  unfold snap_param, set_parameters. cbn [parameters].
  apply AlertFacts.nth_insert_other. apply N_to_nat_neq. exact Hne.
Qed.

Lemma write_param_meta st eng p q e p' :
  param_meta q = param_meta (snap_param (engine_slot st eng) p) ->
  param_meta (snap_param (engine_slot (write_param st eng p q) e) p') =
  param_meta (snap_param (engine_slot st e) p').
Proof.
  intros Hq. destruct (decide (p' = p)) as [->|Hne];
    [|rewrite write_param_param_other by exact Hne; reflexivity].
  destruct (write_param_slot st eng p q e) as [-> | [-> ->]]; [reflexivity|].
  unfold snap_param at 1, set_parameters. cbn [parameters].
  rewrite AlertFacts.nth_insert_same. destruct (decide _); [exact Hq | reflexivity].
Qed.

Lemma read_1553_meta env eng st e p :
  param_meta (snap_param (engine_slot (snd (daq_read_1553_data env eng st)) e) p) =
  param_meta (snap_param (engine_slot st e) p).
Proof.
  unfold daq_read_1553_data. destruct (milstd1553_read_subaddress env 5) as [r d].
  destruct (bool_decide (r = EHMS_OK)); [|reflexivity]. cbv zeta. cbn [snd].
  rewrite write_param_meta by reflexivity. apply write_param_meta. reflexivity.
Qed.

Lemma nth_map_meta (f : ehms_parameter_t -> ehms_parameter_t) l n :
  (forall q, param_meta (f q) = param_meta q) ->
  param_meta (nth n (map f l) zero_parameter) = param_meta (nth n l zero_parameter).
Proof.
  intros Hf. revert n. induction l as [|q l IH]; intros [|n]; simpl; auto.
Qed.

Lemma check_validate_meta env st q :
  param_meta (daq_check_staleness env st (daq_validate_parameter env q)) = param_meta q.
Proof.
  destruct (validate_staleness_cases env st q) as [-> | [-> | [_ ->]]]; reflexivity.
Qed.

(** What the reads of one bus preserve, given only the rows of that bus. *)
Lemma read_arinc_invariant_rows env bus eng (P : daq_module_state_t -> Prop) ps r st :
  P st ->
  (forall st p q, P st -> bus_primary (param_config p) = bus -> P (write_param st eng p q)) ->
  (forall st ok, P st -> P (daq_update_statistics bus ok st)) ->
  P (snd (fold_left (read_arinc_param env bus eng) ps (r, st))).
Proof.
  intros H0 Hw Hu. revert r st H0. induction ps as [|p ps IH]; intros r st H0;
    cbn [fold_left]; [exact H0|].
  unfold read_arinc_param at 2.
  destruct (bus_primary (param_config p) =? bus) eqn:Eb; [|apply IH; exact H0].
  apply N.eqb_eq in Eb.
  destruct (arinc429_read env bus (arinc_label (param_config p))) as [r' d].
  case_decide; apply IH; auto.
Qed.

Lemma acquire_engine_shape_rows env st eng :
  exists st2,
    (forall P : daq_module_state_t -> Prop, P st ->
       (forall st p q, P st -> bus_primary (param_config p) = 0 -> P (write_param st eng p q)) ->
       (forall st ok, P st -> P (daq_update_statistics 0 ok st)) ->
       (forall st, P st -> P (snd (daq_read_1553_data env eng st))) -> P st2) /\
    acquire_engine env st eng =
    set_engine_data st2 (<[N.to_nat eng := acquired_slot env st2 eng]> (engine_data st2)).
Proof.
  unfold acquire_engine.
  destruct (daq_read_arinc429_data env (bus_primary (param_config 0)) eng st)
    as [r1 st1] eqn:E1.
  assert (H1 : forall P : daq_module_state_t -> Prop, P st ->
       (forall st p q, P st -> bus_primary (param_config p) = 0 -> P (write_param st eng p q)) ->
       (forall st ok, P st -> P (daq_update_statistics 0 ok st)) -> P st1).
  { intros P H0 Hw Hu. change st1 with (snd (r1, st1)). rewrite <- E1.
    unfold daq_read_arinc429_data. apply read_arinc_invariant_rows; [exact H0 | exact Hw |].
    intros st' ok Hp. exact (Hu st' ok Hp). }
  rewrite backup_read_is_noop.
  destruct (if bool_decide (r1 = EHMS_OK) then (r1, st1) else (EHMS_OK, st1))
    as [r2 st2] eqn:E2.
  assert (Hst2 : st2 = st1)
    by (destruct (bool_decide (r1 = EHMS_OK)); injection E2; intros; congruence).
  subst st2.
  destruct (if bool_decide (r2 = EHMS_OK) then daq_read_1553_data env eng st1 else (r2, st1))
    as [r3 st3] eqn:E3.
  exists st3. split; [|reflexivity].
  intros P H0 Hw Hu H15. specialize (H1 P H0 Hw Hu).
  destruct (bool_decide (r2 = EHMS_OK)).
  - change st3 with (snd (r3, st3)). rewrite <- E3. apply H15. exact H1.
  - injection E3 as _ <-. exact H1.
Qed.

(** Parameters whose table row is not on bus 0 keep their identifying
    fields through an engine's acquisition. *)
Lemma acquire_engine_meta env st eng e p :
  bus_primary (param_config p) <> 0 ->
  param_meta (snap_param (engine_slot (acquire_engine env st eng) e) p) =
  param_meta (snap_param (engine_slot st e) p).
Proof.
  intros Hp. destruct (acquire_engine_shape_rows env st eng) as (st2 & HP & ->).
  assert (H2 : forall e', param_meta (snap_param (engine_slot st2 e') p) =
                          param_meta (snap_param (engine_slot st e') p)).
  { apply (HP (fun s => forall e', param_meta (snap_param (engine_slot s e') p) =
                                   param_meta (snap_param (engine_slot st e') p)));
      [intros; reflexivity| | |].
    - intros s p' q Hs Hb e'. rewrite write_param_param_other by congruence. apply Hs.
    - intros s ok Hs e'. unfold engine_slot in *. rewrite update_statistics_engine_data. apply Hs.
    - intros s Hs e'. rewrite read_1553_meta. apply Hs. }
  unfold engine_slot at 1. cbn [engine_data set_engine_data].
  destruct (decide (e = eng)) as [->|Hne].
  - rewrite AlertFacts.nth_insert_same. destruct (decide _); [|apply H2].
    rewrite <- H2. unfold acquired_slot, set_parameters, snap_param. cbn [parameters].
    apply nth_map_meta. apply check_validate_meta.
  - rewrite AlertFacts.nth_insert_other by lia. apply H2.
Qed.

Lemma execute_cycle_meta env st e p :
  bus_primary (param_config p) <> 0 ->
  param_meta (snap_param (engine_slot (snd (daq_execute_cycle env st)) e) p) =
  param_meta (snap_param (engine_slot st e) p).
Proof.
  intros Hp. unfold daq_execute_cycle. destruct (negb (is_initialized st)); [reflexivity|].
  cbn [snd].
  apply (fold_left_invariant _ (fun s => forall e', param_meta (snap_param (engine_slot s e') p) =
                                       param_meta (snap_param (engine_slot st e') p)));
    [intros; reflexivity|].
  intros s x _ Hs e'. rewrite acquire_engine_meta by exact Hp. apply Hs.
Qed.

(** Vibration parameters are never stamped: after a successful [daq_init]
    and any number of acquisition cycles, the [EHMS_PARAM_VIB_FAN] and
    [EHMS_PARAM_VIB_CORE] parameters of every engine still have the
    [param_id], [timestamp] and [source_bus] that [memset] left (all zero),
    because their table rows are on bus 2, which no cycle reads, and the
    1553 read keeps those fields. *)
Theorem vibration_parameters_never_stamped ienv config st0 envs e :
  fst (daq_init ienv config st0) = EHMS_OK ->
  let st := daq_cycles envs (snd (daq_init ienv config st0)) in
  param_meta (snap_param (engine_slot st e) EHMS_PARAM_VIB_FAN) = (0, zero_timestamp, 0) /\
  param_meta (snap_param (engine_slot st e) EHMS_PARAM_VIB_CORE) = (0, zero_timestamp, 0).
Proof.
  intros Hok. cbv zeta. rewrite (daq_init_ok _ _ _ Hok). unfold daq_cycles.
  apply (fold_left_invariant _ (fun s =>
    param_meta (snap_param (engine_slot s e) EHMS_PARAM_VIB_FAN) = (0, zero_timestamp, 0) /\
    param_meta (snap_param (engine_slot s e) EHMS_PARAM_VIB_CORE) = (0, zero_timestamp, 0))).
  - change (engine_slot daq_init_state e) with (engine_slot daq_cleared_state e).
    rewrite cleared_engine_slot, !zero_snapshot_param. split; reflexivity.
  - intros s env _ [H1 H2].
    rewrite !execute_cycle_meta by (vm_compute; discriminate). split; assumption.
Qed.

(** How an engine is acquired, whatever the buses answer: the reads of the
    bus-0 rows, then the 1553 read, then validation, staleness, CRC and
    timestamp. A failed bus-0 read never prevents the 1553 read, and the
    backup read changes nothing. *)
Theorem acquire_engine_pipeline env st eng :
  acquire_engine env st eng =
  let st1 := snd (daq_read_arinc429_data env 0 eng st) in
  let st2 := snd (daq_read_1553_data env eng st1) in
  set_engine_data st2 (<[N.to_nat eng := acquired_slot env st2 eng]> (engine_data st2)).
Proof.
  unfold acquire_engine. change (bus_primary (param_config 0)) with 0.
  destruct (daq_read_arinc429_data env 0 eng st) as [r1 st1].
  rewrite backup_read_is_noop. cbn [snd].
  destruct (bool_decide (r1 = EHMS_OK)) eqn:E.
  - rewrite E. destruct (daq_read_1553_data env eng st1) as [r3 st3]. reflexivity.
  - rewrite (bool_decide_eq_true_2 (EHMS_OK = EHMS_OK)) by reflexivity.
    destruct (daq_read_1553_data env eng st1) as [r3 st3]. reflexivity.
Qed.

(** The identifying fields of the snapshots are never written: after a
    successful [daq_init] and any number of acquisition cycles, every
    engine's snapshot still has [engine_id], [flight_phase] and
    [health_status] 0, the values [memset] left. *)
Theorem snapshot_header_stays_zero ienv config st0 envs e :
  fst (daq_init ienv config st0) = EHMS_OK ->
  fixed_fields (engine_slot (daq_cycles envs (snd (daq_init ienv config st0))) e) = (0, 0, 0).
Proof.
  intros Hok. rewrite (daq_init_ok _ _ _ Hok). unfold daq_cycles.
  apply (fold_left_invariant _ (fun s => fixed_fields (engine_slot s e) = (0, 0, 0))).
  - change (engine_slot daq_init_state e) with (engine_slot daq_cleared_state e).
    rewrite cleared_engine_slot. reflexivity.
  - intros s env _ Hs. unfold daq_execute_cycle. destruct (negb (is_initialized s)); [exact Hs|].
    cbn [snd].
    apply (fold_left_invariant _ (fun s' => fixed_fields (engine_slot s' e) = (0, 0, 0))); [exact Hs|].
    intros s' x _ Hs'. rewrite acquire_engine_fixed_fields. exact Hs'.
Qed.

(** Witnesses. *)
Lemma cycle_crc_covers_previous_sample_time_witness :
  is_initialized initialized_state = true /\
  length (engine_data initialized_state) = N.to_nat EHMS_MAX_ENGINES /\
  config_get_engine_count all_reads_fail_env <= EHMS_MAX_ENGINES /\
  0 < config_get_engine_count all_reads_fail_env /\
  sample_time (engine_slot (snd (daq_execute_cycle all_reads_fail_env initialized_state)) 0) =
    system_get_timestamp all_reads_fail_env.
Proof.
  assert (H1 : is_initialized initialized_state = true) by reflexivity.
  assert (H2 : length (engine_data initialized_state) = N.to_nat EHMS_MAX_ENGINES) by reflexivity.
  assert (H3 : config_get_engine_count all_reads_fail_env <= EHMS_MAX_ENGINES)
    by (apply N.leb_le; reflexivity).
  assert (H4 : 0 < config_get_engine_count all_reads_fail_env) by reflexivity.
  split; [exact H1|]. split; [exact H2|]. split; [exact H3|]. split; [exact H4|].
  exact (proj1 (cycle_crc_covers_previous_sample_time all_reads_fail_env initialized_state 0
                  H1 H2 H3 H4)).
Defined.

Lemma execute_cycle_keeps_other_buses_witness :
  1 <> 0 /\
  source_slot (snd (daq_execute_cycle all_reads_fail_env initialized_state)) 1 =
    source_slot initialized_state 1.
Proof.
  assert (H : (1 : N) <> 0) by discriminate.
  split; [exact H|]. exact (execute_cycle_keeps_other_buses all_reads_fail_env initialized_state 1 H).
Defined.

Lemma daq_init_success_state_witness :
  fst (daq_init init_env_ok (Some test_config) zero_daq_state) = EHMS_OK /\
  is_initialized (snd (daq_init init_env_ok (Some test_config) zero_daq_state)) = true.
Proof.
  assert (H : fst (daq_init init_env_ok (Some test_config) zero_daq_state) = EHMS_OK)
    by (vm_compute; reflexivity).
  split; [exact H|]. exact (proj1 (daq_init_success_state init_env_ok (Some test_config)
                                    zero_daq_state H)).
Defined.

Lemma daq_init_failure_deinitializes_witness :
  sample_rate_hz test_config <= 100 /\ cfg_engine_count test_config <= EHMS_MAX_ENGINES /\
  fst (daq_init arinc_init_fails (Some test_config) initialized_state) <> EHMS_OK /\
  is_initialized (snd (daq_init arinc_init_fails (Some test_config) initialized_state)) = false.
Proof.
  assert (H1 : sample_rate_hz test_config <= 100) by (apply N.leb_le; reflexivity).
  assert (H2 : cfg_engine_count test_config <= EHMS_MAX_ENGINES) by (apply N.leb_le; reflexivity).
  assert (H3 : fst (daq_init arinc_init_fails (Some test_config) initialized_state) <> EHMS_OK)
    by (vm_compute; discriminate).
  split; [exact H1|]. split; [exact H2|]. split; [exact H3|].
  exact (proj1 (daq_init_failure_deinitializes arinc_init_fails test_config initialized_state
                  H1 H2 H3)).
Defined.

Lemma nan_passes_validation_witness :
  f32_is_nan (eng_value nan_sample) = true /\
  daq_validate_parameter limits_env nan_sample = nan_sample.
Proof.
  assert (H : f32_is_nan (eng_value nan_sample) = true) by (vm_compute; reflexivity).
  split; [exact H|]. exact (nan_passes_validation limits_env nan_sample H).
Defined.

Lemma staleness_window_witness :
  status zero_parameter = EHMS_PARAM_VALID /\
  current_time_ms initialized_state < u32_mod /\
  timestamp_to_ms all_reads_fail_env (timestamp zero_parameter) < u32_mod /\
  (status (daq_check_staleness all_reads_fail_env initialized_state zero_parameter) =
     EHMS_PARAM_VALID <->
   (1000 <= 0 /\ 0 <= 1000 + DAQ_STALE_TIMEOUT_MS) \/ 0 + u32_mod - DAQ_STALE_TIMEOUT_MS <= 1000).
Proof.
  assert (H1 : status zero_parameter = EHMS_PARAM_VALID) by reflexivity.
  assert (H2 : current_time_ms initialized_state < u32_mod) by reflexivity.
  assert (H3 : timestamp_to_ms all_reads_fail_env (timestamp zero_parameter) < u32_mod)
    by reflexivity.
  split; [exact H1|]. split; [exact H2|]. split; [exact H3|].
  exact (staleness_window all_reads_fail_env initialized_state zero_parameter H1 H2 H3).
Defined.

Lemma update_run_counters_witness :
  let calls := [(0, false); (1, true); (0, true)] in
  0 < EHMS_ARINC429_BUS_COUNT /\ (0 < length (sources initialized_state))%nat /\
  total_samples (source_slot initialized_state 0) < u32_mod /\
  error_samples (source_slot initialized_state 0) < u32_mod /\
  total_samples (source_slot (update_run calls initialized_state) 0) =
    (total_samples (source_slot initialized_state 0)
     + N.of_nat (length (bus_outcomes 0 calls))) mod u32_mod.
Proof.
  cbv zeta.
  assert (H1 : 0 < EHMS_ARINC429_BUS_COUNT) by reflexivity.
  assert (H2 : (N.to_nat 0 < length (sources initialized_state))%nat)
    by (apply Nat.ltb_lt; reflexivity).
  assert (H3 : total_samples (source_slot initialized_state 0) < u32_mod) by reflexivity.
  assert (H4 : error_samples (source_slot initialized_state 0) < u32_mod) by reflexivity.
  split; [exact H1|]. split; [exact H2|]. split; [exact H3|]. split; [exact H4|].
  exact (proj1 (update_run_counters [(0, false); (1, true); (0, true)] initialized_state 0
                  H1 H2 H3 H4)).
Defined.

Lemma vibration_parameters_never_stamped_witness :
  fst (daq_init init_env_ok (Some test_config) zero_daq_state) = EHMS_OK /\
  param_meta (snap_param (engine_slot (daq_cycles [all_reads_fail_env; limits_env]
    (snd (daq_init init_env_ok (Some test_config) zero_daq_state))) 0) EHMS_PARAM_VIB_FAN) =
    (0, zero_timestamp, 0).
Proof.
  assert (H : fst (daq_init init_env_ok (Some test_config) zero_daq_state) = EHMS_OK)
    by (vm_compute; reflexivity).
  split; [exact H|].
  exact (proj1 (vibration_parameters_never_stamped init_env_ok (Some test_config) zero_daq_state
                  [all_reads_fail_env; limits_env] 0 H)).
Defined.

Lemma snapshot_header_stays_zero_witness :
  fst (daq_init init_env_ok (Some test_config) zero_daq_state) = EHMS_OK /\
  fixed_fields (engine_slot (daq_cycles [all_reads_fail_env; limits_env]
    (snd (daq_init init_env_ok (Some test_config) zero_daq_state))) 1) = (0, 0, 0).
Proof.
  assert (H : fst (daq_init init_env_ok (Some test_config) zero_daq_state) = EHMS_OK)
    by (vm_compute; reflexivity).
  split; [exact H|].
  exact (snapshot_header_stays_zero init_env_ok (Some test_config) zero_daq_state
           [all_reads_fail_env; limits_env] 1 H).
Defined.

End DaqPropFacts.
